(** * ExcelTransformer (app.py): column type detection, metadata build, export

    A shallow embedding of the three methods of [ExcelTransformer] that carry
    the logic of the application:

    - [detect_data_type] (with [_is_date] and [_is_numeric]),
    - [transform_to_metadata],
    - [create_excel_download].

    Python exceptions are values of an outcome type, pandas frames are
    row-major tables with a list of column labels, and the openpyxl
    worksheet is a record holding a finite map of cells, written through
    the check openpyxl makes of a cell value.  The functions of the Python
    runtime, pandas and the standard library that the program only calls
    (string case folding, stripping, [float], [strptime], [pd.to_datetime])
    are the fields of the class [Runtime], and the file format behind
    [wb.save] is the class [Xlsx]: every theorem holds for all of them. *)

From Stdlib Require Import QArith.
From stdpp Require Import gmap strings list.
From Stdlib Require Import DecimalString DecimalNat DecimalPos DecimalZ Ascii.

Close Scope Q_scope.
Close Scope Z_scope.
Open Scope string_scope.
Open Scope list_scope.
Open Scope nat_scope.

(** ** Exceptions *)

Inductive exn :=
| KeyError (key : string)
| AttributeError (attr : string)
| IllegalCharacterError (text : string).

Inductive outcome (A : Type) :=
| Returns (a : A)
| Raises (e : exn).
Arguments Returns {A} a.
Arguments Raises {A} e.

Definition bind {A B} (m : outcome A) (k : A → outcome B) : outcome B :=
  match m with
  | Returns a => k a
  | Raises e => Raises e
  end.

Notation "'let!' x ':=' m 'in' k" := (bind m (λ x, k))
  (at level 10, x name, m at level 100, k at level 200).

(** ** The runtime the program calls into *)

Class Runtime := {
  (** [str.strip()] *)
  str_strip : string → string;
  (** [str.lower()] *)
  str_lower : string → string;
  (** [datetime.strptime(s, fmt)]: [true] when it returns, [false] when it
      raises [ValueError] *)
  strptime : string → string → bool;
  (** [pd.to_datetime(s, errors='raise')]: [true] when it returns *)
  to_datetime : string → bool;
  (** [float(s)]: [true] when it returns, [false] on [ValueError] *)
  float : string → bool
}.

(** [s.replace(old, new)] for a one-character [old]. *)
Fixpoint str_replace (old : ascii) (new : string) (s : string) : string :=
  match s with
  | EmptyString => EmptyString
  | String c rest =>
      if Ascii.eqb c old then new +:+ str_replace old new rest
      else String c (str_replace old new rest)
  end.

(** [f"{n}"] for an integer. *)
Definition format_int (n : Z) : string :=
  NilZero.string_of_int (Z.to_int n).

(** ** Cells and series *)

(** A raw cell as the classifier reads it: either missing ([None], [NaN],
    [NaT]: what [pd.isna] accepts and [dropna] removes), or a present
    scalar, given by its [str()] rendering. *)
Inductive cell :=
| NA
| Scalar (repr : string).

Definition isna (value : cell) : bool :=
  match value with
  | NA => true
  | Scalar _ => false
  end.

Definition py_str (value : cell) : string :=
  match value with
  | NA => "nan"
  | Scalar repr => repr
  end.

Definition Series := list cell.

Definition dropna (values : Series) : Series :=
  List.filter (λ v, negb (isna v)) values.

(** The [for val in ...: if p(val): count += 1] loops. *)
Definition count_loop {A} (p : A → bool) (l : list A) : nat :=
  fold_left (λ count val, if p val then count + 1 else count) l 0.

(** [count / total] as the exact rational.  Python divides the two ints
    into the nearest double and compares it with the double literal; with
    [count <= total < 2^50] the comparison with [0.7] or [0.8] has the
    result of comparing the exact quotient with 7/10 or 8/10, since a
    quotient above the bound exceeds it by at least [1 / (10 * total)]. *)
Definition ratio (count total : nat) : Q :=
  Z.of_nat count # Pos.of_nat total.

Definition Qgt_bool (x y : Q) : bool := negb (Qle_bool x y).

(** ** Type detection *)

Definition bool_indicators : gset string :=
  {[ "да"; "нет"; "true"; "false"; "1"; "0"; "yes"; "no";
     "y"; "n"; "вкл"; "выкл"; "on"; "off"; "активен"; "неактивен" ]}.

Definition date_formats : list string :=
  [ "%d.%m.%Y"; "%d/%m/%Y"; "%Y-%m-%d"; "%d-%m-%Y";
    "%d.%m.%y"; "%d/%m/%y"; "%y-%m-%d"; "%d-%m-%y";
    "%Y.%m.%d"; "%Y/%m/%d" ].

Section Detect.
Context `{Runtime}.

Definition _is_date (value : cell) : bool :=
  if isna value then false
  else
    let str_val := str_strip (py_str value) in
    if existsb (strptime str_val) date_formats then true
    else to_datetime str_val.

Definition _is_numeric (value : cell) : bool :=
  if isna value then false
  else float (str_replace " " "" (str_replace "," "." (py_str value))).

(** [clean_values.astype(str).str.strip().str.lower()]; [astype(str)]
    renders a value as [str] does. *)
Definition normalize (clean_values : Series) : list string :=
  (λ v, str_lower (str_strip (py_str v))) <$> clean_values.

(** [unique_values.issubset(bool_indicators) and len(unique_values) <= 3] *)
Definition flag_condition (clean_values : Series) : bool :=
  let unique_values : gset string := list_to_set (normalize clean_values) in
  bool_decide (unique_values ⊆ bool_indicators)
  && bool_decide (size unique_values ≤ 3).

Definition detect_data_type (values : Series) : string :=
  let clean_values := dropna values in
  if bool_decide (length clean_values = 0) then "текст"
  else if flag_condition clean_values then "флаг"
  else
    let date_count := count_loop _is_date clean_values in
    if Qgt_bool (ratio date_count (length clean_values)) (7 # 10) then "дата"
    else
      let numeric_count := count_loop _is_numeric clean_values in
      if Qgt_bool (ratio numeric_count (length clean_values)) (8 # 10)
      then "число"
      else "текст".
End Detect.

(** ** Frames *)

(** A pandas frame, row-major: the column labels and, for each index entry,
    the list of its cells. *)
Record DataFrame (A : Type) := {
  columns : list string;
  rows : list (list A)
}.
Arguments columns {A} d.
Arguments rows {A} d.

(** What [df[label]] is: a [Series] when one column carries the label, a
    frame of all the columns that carry it when several do. *)
Inductive selection (A : Type) :=
| Column (values : list A)
| SubFrame (sub : DataFrame A).
Arguments Column {A} values.
Arguments SubFrame {A} sub.

Fixpoint positions (label : string) (i : nat) (cols : list string) : list nat :=
  match cols with
  | [] => []
  | c :: rest =>
      if bool_decide (c = label) then i :: positions label (i + 1) rest
      else positions label (i + 1) rest
  end.

Definition getitem {A} `{Inhabited A} (df : DataFrame A) (label : string)
  : outcome (selection A) :=
  match positions label 0 (columns df) with
  | [] => Raises (KeyError label)
  | [i] => Returns (Column ((λ r, r !!! i) <$> rows df))
  | ps =>
      Returns (SubFrame {| columns := (λ _, label) <$> ps;
                           rows := (λ r, (λ i, r !!! i) <$> ps) <$> rows df |})
  end.

(** [df[label] = values], with [values] aligned on the index of [df]. *)
Definition setitem {A} (df : DataFrame A) (label : string) (values : list A)
  : DataFrame A :=
  if bool_decide (label ∈ columns df) then
    {| columns := columns df;
       rows := zip_with
                 (λ r v, zip_with (λ c x, if bool_decide (c = label) then v else x)
                                  (columns df) r)
                 (rows df) values |}
  else
    {| columns := columns df ++ [label];
       rows := zip_with (λ r v, r ++ [v]) (rows df) values |}.

#[global] Instance cell_inhabited : Inhabited cell := populate NA.

(** [DataFrame.dropna()]: the rows without any missing cell. *)
Definition dropna_rows (df : DataFrame cell) : list (list cell) :=
  List.filter (forallb (λ v, negb (isna v))) (rows df).

(** ** Metadata records *)

(** The values a metadata record holds. [NaN] is what pandas puts where a
    record lacks a key. *)
Inductive value :=
| NaN
| Str (s : string)
| Int (n : Z).

#[global] Instance value_inhabited : Inhabited value := populate NaN.
#[global] Instance value_eq_dec : EqDecision value.
Proof. solve_decision. Defined.

(** [str(x)], as the f-string applies it. *)
Definition format_value (x : value) : string :=
  match x with
  | NaN => "nan"
  | Str s => s
  | Int n => format_int n
  end.

(** A Python dict literal, in insertion order. *)
Definition dict := list (string * value).

Definition dict_get (d : dict) (key : string) : value :=
  match list_find (λ kv, kv.1 = key) d with
  | Some (_, kv) => kv.2
  | None => NaN
  end.

(** [pd.DataFrame(list_of_dicts)]: the columns are the keys in order of
    first appearance, one row per dict. *)
Definition add_keys (acc : list string) (d : dict) : list string :=
  fold_left (λ acc k, if bool_decide (k ∈ acc) then acc else acc ++ [k]) (d.*1) acc.

Definition DataFrame_from_records (data : list dict) : DataFrame value :=
  let cols := fold_left add_keys data [] in
  {| columns := cols; rows := (λ d, dict_get d <$> cols) <$> data |}.

(** ** The transformer *)

Record ExcelTransformer := {
  report_number : string;
  supported_extensions : list string;
  report_types : list string
}.

(** [report_number or "R001"]: [None] and the empty string give the default. *)
Definition __init__ (report_number : option string) : ExcelTransformer :=
  {| report_number :=
       match report_number with
       | None => "R001"
       | Some s => if bool_decide (s = "") then "R001" else s
       end;
     supported_extensions := [".xlsx"; ".xls"; ".csv"];
     report_types := ["Ручной"; "Полуавтоматический"; "Автоматический"; "ИЛА"] |}.

(** The dict literal of the loop body. *)
Definition metadata_record (idx : nat)
  (column tech_algorithm_to_be data_source_type system_connection data_type : string)
  : dict :=
  [ ("ReportCode_info", Str "");
    ("Noreportfield_info", Int (Z.of_nat idx));
    ("name", Str column);
    ("description", Str "");
    ("TechAsIs", Str "");
    ("BussAlgorythm", Str "");
    ("TechAlgorythm", Str tech_algorithm_to_be);
    ("algorithms_change_info", Str "нет");
    ("dbobjectlink", Str "");
    ("base_type_info", Str data_source_type);
    ("related_it_system_info", Str system_connection);
    ("reportfields_codes", Str "");
    ("reportfields_names", Str "");
    ("reportfields_parent_term", Str "");
    ("reportfields_domain", Str "");
    ("required_attribute_info", Str "да");
    ("base_type_report_field", Str data_type);
    ("base_calc_ref_ind_info", Str "Базовый");
    ("codeTable_info", Str "");
    ("example", Str "");
    ("isToDelete_info", Str "") ].

Section Transform.
Context `{Runtime}.

(** [self.detect_data_type(df[column])].  When the label is repeated,
    [df[column]] is a frame: [dropna] drops its incomplete rows, and a
    frame with rows left has no [.str] accessor. *)
Definition detect_selected (column_data : selection cell) : outcome string :=
  match column_data with
  | Column values => Returns (detect_data_type values)
  | SubFrame sub =>
      if bool_decide (length (dropna_rows sub) = 0) then Returns "текст"
      else Raises (AttributeError "str")
  end.

(** The type the loop finds for one column: [self.detect_data_type(df[column])]. *)
Definition column_type (df : DataFrame cell) (column : string) : outcome string :=
  let! column_data := getitem df column in detect_selected column_data.

(** The [for idx, column in enumerate(df.columns, 1)] loop, from [idx] on. *)
Fixpoint metadata_loop (df : DataFrame cell) (report_type : string)
  (idx : nat) (cols : list string) : outcome (list dict) :=
  match cols with
  | [] => Returns []
  | column :: rest =>
      let! column_data := getitem df column in
      let! data_type := detect_selected column_data in
      let '(tech_algorithm_to_be, data_source_type) :=
        if bool_decide (report_type ∈ ["Ручной"; "Полуавтоматический"])
        then ("Ручной ввод", "Ручное заполнение")
        else ("", "База данных") in
      let system_connection :=
        if bool_decide (report_type = "ИЛА") then "ИЛА One" else "" in
      let metadata_record :=
        metadata_record idx column tech_algorithm_to_be data_source_type
          system_connection data_type in
      let! metadata_list := metadata_loop df report_type (idx + 1) rest in
      Returns (metadata_record :: metadata_list)
  end.

(** The statements after the loop: the frame of the records, and the codes
    computed from its index column. *)
Definition assign_codes (self : ExcelTransformer) (metadata_list : list dict)
  : outcome (DataFrame value) :=
  let metadata_df := DataFrame_from_records metadata_list in
  let! numbers := getitem metadata_df "Noreportfield_info" in
  match numbers with
  | Column numbers =>
      Returns (setitem metadata_df "ReportCode_info"
                 ((λ x, Str (report_number self +:+ "_" +:+ format_value x))
                    <$> numbers))
  | SubFrame _ =>
      (* not reached: the labels of a frame built from dicts are distinct *)
      Returns metadata_df
  end.

Definition transform_to_metadata (self : ExcelTransformer)
  (df : DataFrame cell) (report_type : string) : outcome (DataFrame value) :=
  let! metadata_list := metadata_loop df report_type 1 (columns df) in
  assign_codes self metadata_list.
End Transform.

(** ** The worksheet *)

(** An openpyxl cell: its value ([None] when empty) and whether its font
    is bold. *)
Record Cell := {
  cell_value : option value;
  cell_bold : bool
}.

Definition empty_cell : Cell := {| cell_value := None; cell_bold := false |}.

(** The part of an openpyxl worksheet the exporter touches: the cells, keyed
    by (row, column), both from 1; the rows whose dimension is hidden; the
    top-left cell of the scrolling pane; the column widths by letter. *)
Record Worksheet := {
  title : string;
  cells : gmap (nat * nat) Cell;
  hidden_rows : gset nat;
  freeze_panes : option (nat * nat);
  column_widths : gmap string nat
}.

(** [Workbook()]: one sheet, named "Sheet"; the workbook is its sheets. *)
Definition Workbook : list Worksheet :=
  [ {| title := "Sheet"; cells := ∅; hidden_rows := ∅;
       freeze_panes := None; column_widths := ∅ |} ].

Definition with_cells (f : gmap (nat * nat) Cell → gmap (nat * nat) Cell)
  (ws : Worksheet) : Worksheet :=
  {| title := title ws; cells := f (cells ws); hidden_rows := hidden_rows ws;
     freeze_panes := freeze_panes ws; column_widths := column_widths ws |}.

Definition with_widths (f : gmap string nat → gmap string nat)
  (ws : Worksheet) : Worksheet :=
  {| title := title ws; cells := cells ws; hidden_rows := hidden_rows ws;
     freeze_panes := freeze_panes ws; column_widths := f (column_widths ws) |}.

(** [ws.cell(row, column)] creates the cell when the sheet has none there. *)
Definition get_or_create (k : nat * nat) (m : gmap (nat * nat) Cell)
  : gmap (nat * nat) Cell :=
  match m !! k with
  | Some _ => m
  | None => <[k := empty_cell]> m
  end.

Definition set_value (k : nat * nat) (v : value) (m : gmap (nat * nat) Cell)
  : gmap (nat * nat) Cell :=
  <[k := {| cell_value := Some v;
            cell_bold := cell_bold (default empty_cell (m !! k)) |}]> m.

Definition set_bold (k : nat * nat) (m : gmap (nat * nat) Cell)
  : gmap (nat * nat) Cell :=
  <[k := {| cell_value := cell_value (default empty_cell (m !! k));
            cell_bold := true |}]> m.

(** [value[:n]]: the first [n] characters of a Python string in UTF-8, a
    character being a byte that is not a continuation byte, with the
    continuation bytes that follow it. *)
Fixpoint py_prefix (n : N) (s : string) : string :=
  match s with
  | EmptyString => EmptyString
  | String c rest =>
      if bool_decide (128 ≤ nat_of_ascii c < 192) then String c (py_prefix n rest)
      else if N.eqb n 0 then EmptyString
      else String c (py_prefix (N.pred n) rest)
  end.

(** openpyxl's [ILLEGAL_CHARACTERS_RE], [[\000-\010]|[\013-\014]|[\016-\037]]:
    the control characters other than tab, line feed and carriage return. *)
Definition illegal_character (c : ascii) : bool :=
  let n := nat_of_ascii c in
  bool_decide (n ≤ 8) || bool_decide (11 ≤ n ≤ 12) || bool_decide (14 ≤ n ≤ 31).

(** [Cell.check_string]: the string is cut to 32767 characters, and refused
    when what is left holds an illegal character. *)
Definition check_string (value : string) : outcome string :=
  let value := py_prefix 32767 value in
  if existsb illegal_character (String.list_ascii_of_string value)
  then Raises (IllegalCharacterError value)
  else Returns value.

(** The setter of [cell.value]: a string goes through [check_string], a
    number is taken as it is. *)
Definition bind_value (v : value) : outcome value :=
  match v with
  | Str s => let! s := check_string s in Returns (Str s)
  | _ => Returns v
  end.

(** The store of a checked value in the cell at [row], [column]. *)
Definition put_cell (row column : nat) (v : value) (ws : Worksheet) : Worksheet :=
  with_cells (set_value (row, column) v) ws.

(** [ws.cell(row=row, column=column, value=v)] *)
Definition ws_cell (row column : nat) (v : value) (ws : Worksheet)
  : outcome Worksheet :=
  let! v := bind_value v in Returns (put_cell row column v ws).

(** [ws.cell(row, column).value], read without creating the cell. *)
Definition value_at (ws : Worksheet) (k : nat * nat) : option value :=
  cells ws !! k ≫= cell_value.

Definition bold_at (ws : Worksheet) (k : nat * nat) : bool :=
  cell_bold (default empty_cell (cells ws !! k)).

(** [for i, x in enumerate(l, start): body], threading the state. *)
Fixpoint for_enumerate {A S} (body : nat → A → S → S) (start : nat)
  (l : list A) (s : S) : S :=
  match l with
  | [] => s
  | x :: rest => for_enumerate body (start + 1) rest (body start x s)
  end.

(** The same loop with a body that may raise. *)
Fixpoint for_enumerate_raising {A S} (body : nat → A → S → outcome S)
  (start : nat) (l : list A) (s : S) : outcome S :=
  match l with
  | [] => Returns s
  | x :: rest =>
      let! s := body start x s in
      for_enumerate_raising body (start + 1) rest s
  end.

(** [len(s)] of a Python string in UTF-8: its code points, that is the
    bytes that are not continuation bytes. *)
Fixpoint py_len (s : string) : nat :=
  match s with
  | EmptyString => 0
  | String c rest =>
      let n := nat_of_ascii c in
      if bool_decide (128 ≤ n < 192) then py_len rest else 1 + py_len rest
  end.

(** Truth value of a cell value in [if cell_value and ...]. *)
Definition truthy (v : option value) : bool :=
  match v with
  | None => false
  | Some NaN => true
  | Some (Str s) => negb (bool_decide (s = ""))
  | Some (Int n) => negb (bool_decide (n = 0%Z))
  end.

(** ** Export *)

Definition technical_headers : list string :=
  [ "ReportCode_info"; "Noreportfield_info"; "name"; "description"; "TechAsIs";
    "BussAlgorythm"; "TechAlgorythm"; "algorithms_change_info"; "dbobjectlink";
    "base_type_info"; "related_it_system_info"; "reportfields_codes";
    "reportfields_names"; "reportfields_parent_term"; "reportfields_domain";
    "required_attribute_info"; "base_type_report_field"; "base_calc_ref_ind_info";
    "codeTable_info"; "example"; "isToDelete_info" ].

Definition user_headers : list string :=
  [ "Код атрибута отчета";
    "№ атрибута отчета";
    "Наименование атрибута";
    "Описание атрибута";
    "Технический алгоритм AS IS";
    "Бизнес-алгоритм AS IS";
    "Технический алгоритм TO BE";
    "Алгоритм изменен";
    "Физические атрибуты";
    "Тип источника данных";
    "Связь с информационной системой";
    "Код термина/терминов";
    "Наименование термина/терминов";
    "Наименование родительской сущности термина/терминов";
    "Домен термина/терминов";
    "Обязательный атрибут для заполнения";
    "Базовый тип атрибута (Текст, Число, Дата, Флаг)";
    "Признак атрибута (Базовый, Расчетный, Справочный)";
    "Наименование справочника";
    "Примечание";
    "Помечен к удалению" ].

(** The steps of [create_excel_download], in program order: the technical
    headers in row 1, *)
Definition write_technical_headers (ws : Worksheet) : outcome Worksheet :=
  for_enumerate_raising
    (λ col_idx header ws, ws_cell 1 col_idx (Str header) ws)
    1 technical_headers ws.

(** [ws.row_dimensions[1].hidden = True], *)
Definition hide_first_row (ws : Worksheet) : Worksheet :=
  {| title := title ws; cells := cells ws;
     hidden_rows := {[ 1 ]} ∪ hidden_rows ws;
     freeze_panes := freeze_panes ws; column_widths := column_widths ws |}.

(** the user headers in row 2, each in a bold font, *)
Definition write_user_headers (ws : Worksheet) : outcome Worksheet :=
  for_enumerate_raising
    (λ col_idx header ws,
       let! ws := ws_cell 2 col_idx (Str header) ws in
       Returns (with_cells (set_bold (2, col_idx)) ws))
    1 user_headers ws.

(** [ws.freeze_panes = ws.cell(row=3, column=1)], *)
Definition freeze_header_rows (ws : Worksheet) : Worksheet :=
  {| title := title ws; cells := get_or_create (3, 1) (cells ws);
     hidden_rows := hidden_rows ws;
     freeze_panes := Some (3, 1); column_widths := column_widths ws |}.

(** and the rows of the frame from row 3 on. *)
Definition write_data (metadata_df : DataFrame value) (ws : Worksheet)
  : outcome Worksheet :=
  for_enumerate_raising
    (λ row_idx row ws,
       for_enumerate_raising
         (λ col_idx value ws, ws_cell row_idx col_idx value ws)
         1 row ws)
    3 (rows metadata_df) ws.

Definition write_cells (metadata_df : DataFrame value) (ws : Worksheet)
  : outcome Worksheet :=
  let! ws := write_technical_headers ws in
  let! ws := write_user_headers (hide_first_row ws) in
  write_data metadata_df (freeze_header_rows ws).

(** The column width pass of [create_excel_download]: one data cell of the
    column, read through [ws.cell], which creates it when missing. *)
Definition fit_cell (col_idx : nat) (state : Worksheet * nat) (row_idx : nat)
  : Worksheet * nat :=
  let '(ws, max_length) := state in
  let ws := with_cells (get_or_create (row_idx, col_idx + 1)) ws in
  let cell_value := value_at ws (row_idx, col_idx + 1) in
  if truthy cell_value
     && bool_decide (max_length < py_len (default "" (format_value <$> cell_value)))
  then (ws, py_len (default "" (format_value <$> cell_value)))
  else (ws, max_length).

Definition fit_column (metadata_df : DataFrame value) (col_idx : nat)
  (column_letter : string) (ws : Worksheet) : Worksheet :=
  let max_length := 0 in
  let max_length :=
    match technical_headers !! col_idx with
    | Some h => if bool_decide (max_length < py_len h) then py_len h else max_length
    | None => max_length
    end in
  let max_length :=
    match user_headers !! col_idx with
    | Some h => if bool_decide (max_length < py_len h) then py_len h else max_length
    | None => max_length
    end in
  let '(ws, max_length) :=
    fold_left (fit_cell col_idx) (seq 3 (length (rows metadata_df)))
      (ws, max_length) in
  let adjusted_width := Nat.min (max_length + 2) 50 in
  with_widths <[column_letter := adjusted_width]> ws.

Definition fit_columns (metadata_df : DataFrame value) (ws : Worksheet)
  : Worksheet :=
  for_enumerate (fit_column metadata_df) 0
    ((λ i, String (ascii_of_nat (65 + i)) EmptyString)
       <$> seq 0 (length technical_headers))
    ws.

(** [create_excel_download], up to [wb.save]: the workbook that openpyxl
    serialises into the returned bytes. *)
Definition create_excel_download (metadata_df : DataFrame value)
  : outcome (list Worksheet) :=
  match Workbook with
  | ws :: others =>
      let ws :=
        {| title := "Атрибут отчета"; cells := cells ws;
           hidden_rows := hidden_rows ws; freeze_panes := freeze_panes ws;
           column_widths := column_widths ws |} in
      let! ws := write_cells metadata_df ws in
      Returns (fit_columns metadata_df ws :: others)
  | [] => Returns []
  end.




(** ** Vocabulary of the statements *)

(** The value [check_string] leaves of a value it accepts. *)
Definition stored_value (v : value) : value :=
  match v with
  | Str s => Str (py_prefix 32767 s)
  | _ => v
  end.

(** Whether [bind_value] accepts the value. *)
Definition writable (v : value) : bool :=
  match v with
  | Str s =>
      negb (existsb illegal_character
              (String.list_ascii_of_string (py_prefix 32767 s)))
  | _ => true
  end.

(** The frame of the stored values, and whether every value is accepted. *)
Definition stored (md : DataFrame value) : DataFrame value :=
  {| columns := columns md;
     rows := (λ r : list value, stored_value <$> r) <$> rows md |}.

Definition writable_table (md : DataFrame value) : bool :=
  forallb (forallb writable) (rows md).

(** A string without illegal character. *)
Definition clean (s : string) : bool :=
  negb (existsb illegal_character (String.list_ascii_of_string s)).

(** The cell stores of the export steps, once every value is checked. *)
Definition put_technical_headers (ws : Worksheet) : Worksheet :=
  for_enumerate (λ col_idx header ws, put_cell 1 col_idx (Str header) ws)
    1 technical_headers ws.

Definition put_user_headers (ws : Worksheet) : Worksheet :=
  for_enumerate
    (λ col_idx header ws,
       with_cells (set_bold (2, col_idx)) (put_cell 2 col_idx (Str header) ws))
    1 user_headers ws.

Definition put_data (metadata_df : DataFrame value) (ws : Worksheet)
  : Worksheet :=
  for_enumerate
    (λ row_idx row ws,
       for_enumerate (λ col_idx value ws, put_cell row_idx col_idx value ws)
         1 row ws)
    3 (rows metadata_df) ws.

Definition put_cells (metadata_df : DataFrame value) (ws : Worksheet)
  : Worksheet :=
  put_data metadata_df
    (freeze_header_rows
       (put_user_headers (hide_first_row (put_technical_headers ws)))).

(** The number test as the specification words it: commas turned into
    periods and all white space removed, not only the spaces. *)
Definition is_whitespace (c : ascii) : bool :=
  let n := nat_of_ascii c in
  bool_decide (9 ≤ n ≤ 13) || bool_decide (28 ≤ n ≤ 32).

Fixpoint remove_whitespace (s : string) : string :=
  match s with
  | EmptyString => EmptyString
  | String c rest =>
      if is_whitespace c then remove_whitespace rest
      else String c (remove_whitespace rest)
  end.

Definition numeric_without_whitespace `{Runtime} (value : cell) : bool :=
  if isna value then false
  else float (remove_whitespace (str_replace "," "." (py_str value))).

(** The three defaults the loop derives from the report type. *)
Definition tech_default (report_type : string) : string :=
  if bool_decide (report_type ∈ ["Ручной"; "Полуавтоматический"])
  then "Ручной ввод" else "".

Definition source_default (report_type : string) : string :=
  if bool_decide (report_type ∈ ["Ручной"; "Полуавтоматический"])
  then "Ручное заполнение" else "База данных".

Definition system_link (report_type : string) : string :=
  if bool_decide (report_type = "ИЛА") then "ИЛА One" else "".

(** The record of column [column], of index [idx] and type [data_type]. *)
Definition record_of (report_type : string) (idx : nat)
  (column data_type : string) : dict :=
  metadata_record idx column (tech_default report_type)
    (source_default report_type) (system_link report_type) data_type.

(** The same record as a row of the returned frame, code filled in. *)
Definition row_of (self : ExcelTransformer) (report_type : string) (idx : nat)
  (column data_type : string) : list value :=
  [ Str (report_number self +:+ "_" +:+ format_int (Z.of_nat idx));
    Int (Z.of_nat idx); Str column; Str ""; Str ""; Str "";
    Str (tech_default report_type); Str "нет"; Str "";
    Str (source_default report_type); Str (system_link report_type);
    Str ""; Str ""; Str ""; Str ""; Str "да"; Str data_type; Str "Базовый";
    Str ""; Str ""; Str "" ].

(** The value of the column [label] in the row [r] of [df]. *)
Definition field {A} (df : DataFrame A) (r : list A) (label : string)
  : option A :=
  list_find (λ c, c = label) (columns df) ≫= λ ic, r !! ic.1.

(** The parts of a sheet outside its cells and column widths. *)
Definition sheet_props (ws : Worksheet) : string * gset nat * option (nat * nat) :=
  (title ws, hidden_rows ws, freeze_panes ws).

(** A metadata table: a frame with the 21 fields, in the order of the
    technical headers, and rows of that width. *)
Definition MetadataTable (md : DataFrame value) : Prop :=
  columns md = technical_headers
  ∧ Forall (λ r, length r = length technical_headers) (rows md).

(** The blank sheet of a new workbook, renamed. *)
Definition blank_sheet : Worksheet :=
  {| title := "Атрибут отчета"; cells := ∅; hidden_rows := ∅;
     freeze_panes := None; column_widths := ∅ |}.

(** The letter of the sheet column [j], from 0. *)
Definition column_letter (j : nat) : string :=
  String (ascii_of_nat (65 + j)) EmptyString.

(** [len(str(v))] of a cell value, 0 for the empty cell. *)
Definition text_length (v : option value) : nat :=
  py_len (default "" (format_value <$> v)).

(** The longest text of the sheet column [j], from 0: its two headers and
    the [j]-th value of every row. *)
Definition widest (metadata_df : DataFrame value) (j : nat) : nat :=
  max_list (text_length (Str <$> technical_headers !! j)
            :: text_length (Str <$> user_headers !! j)
            :: ((λ r, text_length (r !! j)) <$> rows metadata_df)).

(** The sheet of a table whose values are all accepted. *)
Definition sheet_of (md : DataFrame value) : Worksheet :=
  fit_columns (stored md) (put_cells (stored md) blank_sheet).

(** ** A runtime to run the definitions on samples

    ASCII-only stripping and case folding, dates of the shape [dd.mm.yyyy]
    and unsigned decimal numbers: enough to evaluate the program on the
    samples below, where it agrees with Python. *)
Module Sample.

Definition is_space (c : ascii) : bool :=
  bool_decide (c ∈ [" "; "009"; "010"; "011"; "012"; "013"]%char).

Fixpoint lstrip (s : string) : string :=
  match s with
  | String c rest => if is_space c then lstrip rest else s
  | EmptyString => EmptyString
  end.

Fixpoint rstrip (s : string) : string :=
  match s with
  | EmptyString => EmptyString
  | String c rest =>
      match rstrip rest with
      | EmptyString => if is_space c then EmptyString else String c EmptyString
      | rest' => String c rest'
      end
  end.

Definition lower_ascii (c : ascii) : ascii :=
  let n := nat_of_ascii c in
  if bool_decide (65 ≤ n ≤ 90) then ascii_of_nat (n + 32) else c.

Fixpoint lower (s : string) : string :=
  match s with
  | EmptyString => EmptyString
  | String c rest => String (lower_ascii c) (lower rest)
  end.

Definition is_digit (c : ascii) : bool :=
  bool_decide (48 ≤ nat_of_ascii c ≤ 57).

Definition digits (s : string) : bool :=
  negb (bool_decide (s = "")) && forallb is_digit (String.list_ascii_of_string s).

Definition dotted_date (s fmt : string) : bool :=
  bool_decide (fmt = "%d.%m.%Y") &&
  match String.list_ascii_of_string s with
  | [d1; d2; "."; m1; m2; "."; y1; y2; y3; y4]%char =>
      forallb is_digit [d1; d2; m1; m2; y1; y2; y3; y4]
      && bool_decide (1 ≤ (nat_of_ascii d1 - 48) * 10 + (nat_of_ascii d2 - 48) ≤ 28)
      && bool_decide (1 ≤ (nat_of_ascii m1 - 48) * 10 + (nat_of_ascii m2 - 48) ≤ 12)
  | _ => false
  end.

#[export] Instance runtime : Runtime := {|
  str_strip s := rstrip (lstrip s);
  str_lower := lower;
  strptime := dotted_date;
  to_datetime _ := false;
  float := digits
|}.

Definition frame : DataFrame cell :=
  {| columns := ["ID"; "Name"; "Active"; "JoinDate"];
     rows := [ [Scalar "1"; Scalar "Ann"; Scalar "Yes"; Scalar "01.02.2020"];
               [Scalar "2"; Scalar "Bob"; Scalar "no "; Scalar "15.03.2021"];
               [Scalar "3"; NA; Scalar "yes"; NA] ] |}.

Definition no_columns : DataFrame cell := {| columns := []; rows := [] |}.

Definition missing : Series := [NA; NA; NA].

(** Every value is a number, and every value is in the vocabulary. *)
Definition ones : Series := [Scalar "1"; Scalar "0"; NA; Scalar " 1"].

(** Seven dates among ten values. *)
Definition dates_70 : Series :=
  [ Scalar "01.02.2020"; Scalar "02.02.2020"; Scalar "03.02.2020";
    Scalar "04.02.2020"; Scalar "05.02.2020"; Scalar "06.02.2020";
    Scalar "07.02.2020"; Scalar "soon"; NA; Scalar "later"; Scalar "never" ].

(** Eight dates among ten values. *)
Definition dates_80 : Series := Scalar "08.02.2020" :: removelast dates_70.

(** Eight numbers among ten values. *)
Definition numbers_80 : Series :=
  [ Scalar "10"; Scalar "1 000"; Scalar "12"; Scalar "13"; Scalar "14";
    Scalar "15"; Scalar "16"; Scalar "17"; Scalar "n/a"; Scalar "none" ].

(** Nine numbers among ten values. *)
Definition numbers_90 : Series := Scalar "18" :: removelast numbers_80.

Definition transformer : ExcelTransformer := __init__ (Some "R007").

(** The present values of [ones], in another order and among other
    missing cells. *)
Definition ones_shuffled : Series :=
  [NA; Scalar "0"; Scalar "1"; NA; NA; Scalar " 1"].

(** A frame with a repeated label and a complete row. *)
Definition repeated : DataFrame cell :=
  {| columns := ["A"; "B"; "A"];
     rows := [ [Scalar "1"; Scalar "2"; Scalar "3"]; [NA; Scalar "5"; NA] ] |}.

(** The table of [frame] for the report type "Ручной". *)
Definition built : DataFrame value :=
  {| columns := technical_headers;
     rows := [ row_of transformer "Ручной" 1 "ID" "число";
               row_of transformer "Ручной" 2 "Name" "текст";
               row_of transformer "Ручной" 3 "Active" "флаг";
               row_of transformer "Ручной" 4 "JoinDate" "дата" ] |}.

(** A frame without rows. *)
Definition no_rows : DataFrame value :=
  {| columns := technical_headers; rows := [] |}.

(** Present values that are blank strings, among missing cells. *)
Definition blanks : Series := [Scalar " "; NA; Scalar ""; Scalar "  "].

(** The runtime of the samples with what [pd.to_datetime] does of the empty
    string: it returns [NaT] and does not raise. *)
Definition runtime_nat : Runtime := {|
  str_strip s := rstrip (lstrip s);
  str_lower := lower;
  strptime := dotted_date;
  to_datetime s := bool_decide (s = "");
  float := digits
|}.

(** Ten numbers written with a tab between the thousands. *)
Definition tabbed : Series :=
  replicate 10 (Scalar (String "1" (String "009" "000"))).

(** A table whose label holds the control character U+0001. *)
Definition illegal_table : DataFrame value :=
  {| columns := technical_headers;
     rows := [ row_of transformer "ИЛА" 1 (String "001" "ID") "текст" ] |}.




(** A table of one record. *)
Definition table : DataFrame value :=
  {| columns := technical_headers;
     rows := [ row_of transformer "ИЛА" 1 "ID" "число" ] |}.

End Sample.

(** * Properties *)

(** Case analysis on membership in a list literal. *)
Ltac list_cases :=
  repeat match goal with
    | Hm : _ ∈ _ :: _ |- _ => apply elem_of_cons in Hm as [Hm|Hm]
    | Hm : _ ∈ [] |- _ => apply elem_of_nil in Hm; destruct Hm
    end.

(** ** Counting and thresholds *)

Lemma count_loop_from {A} (p : A → bool) (l : list A) (n : nat) :
  fold_left (λ count val, if p val then count + 1 else count) l n
  = n + length (List.filter p l).
Proof.
  revert n. induction l as [|x l IH]; intros n; simpl; [lia|].
  rewrite IH. destruct (p x); simpl; lia.
Qed.

Lemma count_loop_filter {A} (p : A → bool) (l : list A) :
  count_loop p l = length (List.filter p l).
Proof. unfold count_loop. now rewrite count_loop_from. Qed.

Lemma Qgt_bool_ratio (count total : nat) (a : Z) (b : positive) :
  0 < total →
  Qgt_bool (ratio count total) (a # b) = true
  ↔ (a # b < ratio count total)%Q.
Proof.
  intros _. unfold Qgt_bool. rewrite negb_true_iff.
  destruct (Qle_bool (ratio count total) (a # b)) eqn:E.
  - apply Qle_bool_iff in E. split; [discriminate|].
    intros Hlt. exfalso. exact (Qlt_not_le _ _ Hlt E).
  - split; [|reflexivity]. intros _. apply Qnot_le_lt. intros Hle.
    apply Qle_bool_iff in Hle. congruence.
Qed.

(** The exact quotient exceeds [a/b] when the cross product does. *)
Lemma ratio_gt_cross (count total : nat) (a : Z) (b : positive) :
  0 < total →
  (a # b < ratio count total)%Q
  ↔ (a * Z.of_nat total < Z.pos b * Z.of_nat count)%Z.
Proof.
  intros Htotal. unfold ratio, Qlt.
  cbn [Qnum Qden].
  assert (Hpos : Z.pos (Pos.of_nat total) = Z.of_nat total).
  { destruct total as [|n]; [lia|].
    rewrite <- Pos.of_nat_succ, Zpos_P_of_succ_nat. lia. }
  rewrite Hpos. lia.
Qed.

Lemma dropna_nil_iff (values : Series) :
  dropna values = [] ↔ Forall (λ v, isna v = true) values.
Proof.
  unfold dropna. induction values as [|v values IH]; simpl.
  - split; [constructor|reflexivity].
  - destruct (isna v) eqn:E; simpl.
    + rewrite IH. split; [now constructor|now inversion 1].
    + split; [discriminate|]. inversion 1. congruence.
Qed.

Section DetectProperties.
Context `{Runtime}.

Lemma detect_nonempty (values : Series) :
  dropna values ≠ [] →
  detect_data_type values =
    if flag_condition (dropna values) then "флаг"
    else if Qgt_bool (ratio (count_loop _is_date (dropna values))
                            (length (dropna values))) (7 # 10) then "дата"
    else if Qgt_bool (ratio (count_loop _is_numeric (dropna values))
                            (length (dropna values))) (8 # 10) then "число"
    else "текст".
Proof.
  intros Hne. unfold detect_data_type.
  rewrite bool_decide_eq_false_2; [reflexivity|].
  destruct (dropna values); [done|discriminate].
Qed.

(** A sample whose values are all missing ([None], [NaN], [NaT]) is
    classified as text. *)
Theorem detect_all_missing_is_text (values : Series) :
  Forall (λ v, isna v = true) values →
  detect_data_type values = "текст".
Proof.
  intros Hall. apply dropna_nil_iff in Hall.
  unfold detect_data_type. now rewrite Hall.
Qed.

(** C3: with at least one value present, when the distinct trimmed
    lower-case values all belong to the boolean vocabulary and there are at
    most three of them, the sample is a flag, whatever the date and number
    parsers say of its values. *)
Theorem detect_flag_priority (values : Series) :
  dropna values ≠ [] →
  (list_to_set (normalize (dropna values)) : gset string) ⊆ bool_indicators →
  size (list_to_set (normalize (dropna values)) : gset string) ≤ 3 →
  detect_data_type values = "флаг".
Proof.
  intros Hne Hsub Hsize. rewrite detect_nonempty by assumption.
  unfold flag_condition.
  rewrite !bool_decide_eq_true_2 by assumption. reflexivity.
Qed.

(** C4: with at least one value present and the flag condition not met,
    the sample is a date exactly when the share of present values that
    [_is_date] accepts is strictly above 7/10; at exactly 7/10 it is not. *)
Theorem detect_date_iff (values : Series) :
  dropna values ≠ [] →
  flag_condition (dropna values) = false →
  let share := ratio (length (List.filter _is_date (dropna values)))
                     (length (dropna values)) in
  (detect_data_type values = "дата" ↔ (7 # 10 < share)%Q)
  ∧ ((share == 7 # 10)%Q → detect_data_type values ≠ "дата").
Proof.
  intros Hne Hflag share.
  assert (Hlen : 0 < length (dropna values)).
  { destruct (dropna values); [exfalso; now apply Hne|simpl; lia]. }
  assert (Hiff : detect_data_type values = "дата" ↔ (7 # 10 < share)%Q).
  { subst share. rewrite detect_nonempty, Hflag by assumption.
    rewrite <- (Qgt_bool_ratio _ _ 7 10 Hlen), count_loop_filter.
    destruct (Qgt_bool _ (7 # 10)); [done|].
    destruct (Qgt_bool _ (8 # 10)); split; discriminate. }
  split; [exact Hiff|].
  intros Heq Hdate. apply Hiff in Hdate. rewrite Heq in Hdate.
  exact (Qlt_irrefl _ Hdate).
Qed.

(** C5: with at least one value present, the flag condition not met and
    the date share not above 7/10, the sample is a number exactly when the
    share of present values that [_is_numeric] accepts is strictly above
    8/10; at exactly 8/10 it is not, and whenever it is not a number it is
    text. *)
Theorem detect_number_iff (values : Series) :
  dropna values ≠ [] →
  flag_condition (dropna values) = false →
  ¬ (7 # 10 < ratio (length (List.filter _is_date (dropna values)))
                    (length (dropna values)))%Q →
  let share := ratio (length (List.filter _is_numeric (dropna values)))
                     (length (dropna values)) in
  (detect_data_type values = "число" ↔ (8 # 10 < share)%Q)
  ∧ ((share == 8 # 10)%Q → detect_data_type values ≠ "число")
  ∧ (detect_data_type values ≠ "число" → detect_data_type values = "текст").
Proof.
  intros Hne Hflag Hdate share.
  assert (Hlen : 0 < length (dropna values)).
  { destruct (dropna values); [exfalso; now apply Hne|simpl; lia]. }
  assert (Hstep : detect_data_type values =
                  if Qgt_bool share (8 # 10) then "число" else "текст").
  { rewrite detect_nonempty, Hflag by assumption.
    rewrite !count_loop_filter. fold share.
    destruct (Qgt_bool _ (7 # 10)) eqn:E; [|reflexivity].
    apply (Qgt_bool_ratio _ _ 7 10 Hlen) in E. contradiction. }
  assert (Hiff : detect_data_type values = "число" ↔ (8 # 10 < share)%Q).
  { rewrite Hstep. subst share. rewrite <- (Qgt_bool_ratio _ _ 8 10 Hlen).
    destruct (Qgt_bool _ (8 # 10)); split; done. }
  split; [exact Hiff|]. split.
  - intros Heq Hnum. apply Hiff in Hnum. rewrite Heq in Hnum.
    exact (Qlt_irrefl _ Hnum).
  - rewrite Hstep. destruct (Qgt_bool share (8 # 10)); done.
Qed.

End DetectProperties.

(** ** Selecting a column *)

Lemma positions_absent (label : string) (i : nat) (cols : list string) :
  label ∉ cols → positions label i cols = [].
Proof.
  revert i. induction cols as [|c cols IH]; intros i Hnot; [reflexivity|].
  simpl. apply not_elem_of_cons in Hnot as [Hne Hnot].
  rewrite bool_decide_eq_false_2 by congruence. now apply IH.
Qed.

Lemma positions_unique (label : string) (i j : nat) (cols : list string) :
  NoDup cols → cols !! j = Some label → positions label i cols = [i + j].
Proof.
  revert i j. induction cols as [|c cols IH]; intros i j Hnd Hj; [done|].
  apply NoDup_cons in Hnd as [Hnot Hnd]. destruct j as [|j]; simpl in *.
  - injection Hj as ->. rewrite bool_decide_eq_true_2 by reflexivity.
    rewrite positions_absent by assumption. f_equal. lia.
  - rewrite bool_decide_eq_false_2.
    + rewrite (IH (i + 1) j) by assumption. f_equal. lia.
    + intros ->. apply Hnot. eapply list_elem_of_lookup_2. eassumption.
Qed.

Lemma getitem_unique {A} `{Inhabited A} (df : DataFrame A) (label : string)
  (j : nat) :
  NoDup (columns df) → columns df !! j = Some label →
  getitem df label = Returns (Column ((λ r, r !!! j) <$> rows df)).
Proof.
  intros Hnd Hj. unfold getitem.
  now rewrite (positions_unique label 0 j) by assumption.
Qed.

Lemma getitem_no_columns {A} `{Inhabited A} (df : DataFrame A) (label : string) :
  columns df = [] → getitem df label = Raises (KeyError label).
Proof. intros Hnil. unfold getitem. now rewrite Hnil. Qed.

(** ** The loop over the columns *)

Section TransformProperties.
Context `{Runtime}.

Lemma metadata_loop_cons df report_type idx column rest :
  metadata_loop df report_type idx (column :: rest) =
  let! data_type := column_type df column in
  let! metadata_list := metadata_loop df report_type (idx + 1) rest in
  Returns (record_of report_type idx column data_type :: metadata_list).
Proof.
  simpl. unfold column_type.
  destruct (getitem df column) as [sel|e]; [|reflexivity]. simpl.
  destruct (detect_selected sel) as [t|e]; [|reflexivity]. simpl.
  unfold record_of, tech_default, source_default, system_link.
  destruct (bool_decide (report_type ∈ _)); reflexivity.
Qed.

Lemma metadata_loop_inv df report_type idx cols l :
  metadata_loop df report_type idx cols = Returns l →
  ∃ types, length types = length cols
    ∧ l = imap (λ i ct, record_of report_type (idx + i) ct.1 ct.2)
               (zip cols types).
Proof.
  revert idx l. induction cols as [|column rest IH]; intros idx l Hl.
  - injection Hl as <-. now exists [].
  - rewrite metadata_loop_cons in Hl.
    destruct (column_type df column) as [t|e]; [|discriminate]. simpl in Hl.
    destruct (metadata_loop df report_type (idx + 1) rest) as [l'|e] eqn:E;
      [|discriminate].
    injection Hl as <-. destruct (IH _ _ E) as (types & Hlen & ->).
    exists (t :: types). split; [simpl; lia|].
    simpl. rewrite Nat.add_0_r. f_equal.
    apply imap_ext. intros i [c t'] _. simpl. f_equal. lia.
Qed.

Lemma metadata_loop_total df report_type idx cols :
  Forall (λ c, ∃ t, column_type df c = Returns t) cols →
  ∃ l, metadata_loop df report_type idx cols = Returns l.
Proof.
  revert idx. induction cols as [|column rest IH]; intros idx Hall.
  - now exists [].
  - apply Forall_cons in Hall as [[t Ht] Hall].
    destruct (IH (idx + 1) Hall) as [l Hl].
    rewrite metadata_loop_cons, Ht. simpl. rewrite Hl. simpl. eauto.
Qed.

(** Whether the loop fails, and how, does not depend on the report type. *)
Lemma metadata_loop_raises df rt rt' idx idx' cols e :
  metadata_loop df rt idx cols = Raises e →
  metadata_loop df rt' idx' cols = Raises e.
Proof.
  revert idx idx'. induction cols as [|column rest IH]; intros idx idx' He;
    [discriminate|].
  rewrite metadata_loop_cons in *.
  destruct (column_type df column) as [t|e']; [|exact He]. simpl in *.
  destruct (metadata_loop df rt (idx + 1) rest) as [l|e''] eqn:E;
    [discriminate|].
  injection He as ->. now rewrite (IH _ (idx' + 1) E).
Qed.

Lemma column_type_unique df column :
  NoDup (columns df) → column ∈ columns df →
  ∃ t, column_type df column = Returns t.
Proof.
  intros Hnd Hin. apply list_elem_of_lookup_1 in Hin as [j Hj].
  unfold column_type. rewrite (getitem_unique df column j) by assumption.
  simpl. eauto.
Qed.

End TransformProperties.

(** ** The frame of the records *)

Lemma record_of_keys report_type idx column data_type :
  (record_of report_type idx column data_type).*1 = technical_headers.
Proof. reflexivity. Qed.

Lemma add_keys_first (d : dict) :
  d.*1 = technical_headers → add_keys [] d = technical_headers.
Proof. intros Hk. unfold add_keys. rewrite Hk. reflexivity. Qed.

Lemma add_keys_again (d : dict) :
  d.*1 = technical_headers → add_keys technical_headers d = technical_headers.
Proof. intros Hk. unfold add_keys. rewrite Hk. reflexivity. Qed.

Lemma add_keys_records (data : list dict) :
  Forall (λ d, d.*1 = technical_headers) data → data ≠ [] →
  fold_left add_keys data [] = technical_headers.
Proof.
  intros Hall Hne. destruct Hall as [|d data Hd Hall]; [done|].
  simpl. rewrite add_keys_first by assumption. clear Hne Hd.
  induction Hall as [|d' data Hd' Hall IH]; [reflexivity|].
  simpl. now rewrite add_keys_again.
Qed.

Lemma row_of_record (self : ExcelTransformer) report_type idx column data_type :
  let r := dict_get (record_of report_type idx column data_type)
             <$> technical_headers in
  zip_with (λ c x,
              if bool_decide (c = "ReportCode_info")
              then Str (report_number self +:+ "_" +:+ format_value (r !!! 1))
              else x)
    technical_headers r
  = row_of self report_type idx column data_type.
Proof. reflexivity. Qed.

Section TransformInversion.
Context `{Runtime}.

Lemma assign_codes_records self report_type idx cols types :
  cols ≠ [] → length types = length cols →
  assign_codes self
    (imap (λ i ct, record_of report_type (idx + i) ct.1 ct.2) (zip cols types))
  = Returns {| columns := technical_headers;
               rows := imap (λ i ct, row_of self report_type (idx + i) ct.1 ct.2)
                            (zip cols types) |}.
Proof.
  intros Hne Hlen. set (l := imap _ _).
  assert (Hkeys : fold_left add_keys l [] = technical_headers).
  { apply add_keys_records.
    - apply Forall_forall. intros d Hd.
      apply elem_of_lookup_imap_1 in Hd as (i & [c t] & -> & _).
      apply record_of_keys.
    - subst l. destruct cols; [done|]. destruct types; discriminate. }
  unfold assign_codes, DataFrame_from_records. rewrite Hkeys.
  unfold getitem. cbn [columns rows].
  change (positions "Noreportfield_info" 0 technical_headers) with [1].
  simpl. f_equal. unfold setitem. cbn [columns rows].
  rewrite bool_decide_eq_true_2 by constructor.
  f_equal. rewrite <- !list_fmap_compose.
  rewrite zip_with_fmap_l, zip_with_fmap_r, zip_with_diag.
  subst l. rewrite fmap_imap. apply imap_ext. intros i [c t] _.
  cbn [fst snd compose]. apply row_of_record.
Qed.

Lemma transform_no_columns self df report_type :
  columns df = [] →
  transform_to_metadata self df report_type
  = Raises (KeyError "Noreportfield_info").
Proof.
  intros Hnil. unfold transform_to_metadata. rewrite Hnil. reflexivity.
Qed.

(** What [transform_to_metadata] returns, when it returns. *)
Lemma transform_returns_inv self df report_type md :
  transform_to_metadata self df report_type = Returns md →
  ∃ types, length types = length (columns df)
    ∧ columns df ≠ []
    ∧ md = {| columns := technical_headers;
              rows := imap (λ i ct, row_of self report_type (1 + i) ct.1 ct.2)
                           (zip (columns df) types) |}.
Proof.
  intros Hmd. destruct (decide (columns df = [])) as [Hnil|Hne].
  { rewrite transform_no_columns in Hmd by assumption. discriminate. }
  unfold transform_to_metadata in Hmd.
  destruct (metadata_loop df report_type 1 (columns df)) as [l|e] eqn:El;
    [|discriminate].
  simpl in Hmd. destruct (metadata_loop_inv _ _ _ _ _ El) as (types & Hlen & ->).
  rewrite assign_codes_records in Hmd by assumption.
  injection Hmd as <-. eauto.
Qed.

Lemma transform_returns self df report_type :
  columns df ≠ [] → NoDup (columns df) →
  ∃ md, transform_to_metadata self df report_type = Returns md.
Proof.
  intros Hne Hnd.
  destruct (metadata_loop_total df report_type 1 (columns df)) as [l Hl].
  { apply Forall_forall. intros c Hc. now apply column_type_unique. }
  destruct (metadata_loop_inv _ _ _ _ _ Hl) as (types & Hlen & Heq).
  unfold transform_to_metadata. rewrite Hl. simpl. subst l.
  rewrite assign_codes_records by assumption. eauto.
Qed.

(** A failure of [transform_to_metadata] is the same for every report type. *)
Lemma transform_raises self df rt rt' e :
  transform_to_metadata self df rt = Raises e →
  transform_to_metadata self df rt' = Raises e.
Proof.
  intros He. destruct (decide (columns df = [])) as [Hnil|Hne].
  { rewrite transform_no_columns in * by assumption. exact He. }
  unfold transform_to_metadata in *.
  destruct (metadata_loop df rt 1 (columns df)) as [l|e'] eqn:El.
  - simpl in He.
    destruct (metadata_loop_inv _ _ _ _ _ El) as (types & Hlen & ->).
    rewrite assign_codes_records in He by assumption. discriminate.
  - simpl in He. injection He as ->.
    now rewrite (metadata_loop_raises _ _ rt' _ 1 _ _ El).
Qed.

End TransformInversion.

(** ** Codes are distinct *)

Lemma append_inj_r (s a b : string) : s +:+ a = s +:+ b → a = b.
Proof. induction s as [|c s IH]; simpl; [done|]. intros [= Heq]. auto. Qed.

Lemma format_int_inj (n m : Z) : format_int n = format_int m → n = m.
Proof.
  unfold format_int. intros Heq.
  assert (Hsome : Some (Z.to_int n) = Some (Z.to_int m)).
  { rewrite <- (NilZero.isi (Z.to_int n)), <- (NilZero.isi (Z.to_int m)).
    - now rewrite Heq.
    - destruct m; simpl; try discriminate.
      intros [= Hp]. exact (Unsigned.to_uint_nonnil _ Hp).
    - destruct m; simpl; try discriminate.
      intros [= Hp]. exact (Unsigned.to_uint_nonnil _ Hp).
    - destruct n; simpl; try discriminate.
      intros [= Hp]. exact (Unsigned.to_uint_nonnil _ Hp).
    - destruct n; simpl; try discriminate.
      intros [= Hp]. exact (Unsigned.to_uint_nonnil _ Hp). }
  injection Hsome as Hint. now apply DecimalZ.to_int_inj.
Qed.

Lemma code_inj (prefix : string) (n m : nat) :
  prefix +:+ "_" +:+ format_int (Z.of_nat n)
  = prefix +:+ "_" +:+ format_int (Z.of_nat m) →
  n = m.
Proof.
  intros Heq. apply append_inj_r in Heq. injection Heq as Heq.
  apply format_int_inj in Heq. lia.
Qed.

(** ** The fields of a returned row *)

Lemma field_row_of self report_type idx column data_type rs :
  let md := {| columns := technical_headers; rows := rs |} in
  let r := row_of self report_type idx column data_type in
  field md r "ReportCode_info"
    = Some (Str (report_number self +:+ "_" +:+ format_int (Z.of_nat idx)))
  ∧ field md r "Noreportfield_info" = Some (Int (Z.of_nat idx))
  ∧ field md r "name" = Some (Str column)
  ∧ field md r "TechAlgorythm" = Some (Str (tech_default report_type))
  ∧ field md r "base_type_info" = Some (Str (source_default report_type))
  ∧ field md r "related_it_system_info" = Some (Str (system_link report_type))
  ∧ field md r "base_type_report_field" = Some (Str data_type).
Proof. repeat split; reflexivity. Qed.

Lemma rows_lookup {B} (f : nat → string * string → B) (cols types : list string)
  (i : nat) (r : B) :
  length types = length cols →
  imap f (zip cols types) !! i = Some r ↔
  ∃ c t, cols !! i = Some c ∧ types !! i = Some t ∧ r = f i (c, t).
Proof.
  intros Hlen. rewrite list_lookup_imap_Some. split.
  - intros ([c t] & Hz & ->). apply lookup_zip_Some in Hz as [Hc Ht]. eauto.
  - intros (c & t & Hc & Ht & ->). exists (c, t). split; [|done].
    now apply lookup_zip_Some.
Qed.

Section BuildTheorems.
Context `{Runtime}.

(** C1: on a frame without columns [transform_to_metadata] does not return
    an empty table: the lookup of the index column in the frame of no
    records raises [KeyError]. *)
Theorem transform_zero_columns_raises self df report_type :
  columns df = [] →
  transform_to_metadata self df report_type
  = Raises (KeyError "Noreportfield_info").
Proof. apply transform_no_columns. Qed.

(** The rows of a returned table are as many as the columns, and at least
    one. *)
Lemma rows_of_columns {B} (f : nat → string * string → B)
  (cols types : list string) :
  length types = length cols → cols ≠ [] →
  imap f (zip cols types) ≠ []
  ∧ length (imap f (zip cols types)) = length cols.
Proof.
  intros Hlen Hne.
  assert (Hrows : length (imap f (zip cols types)) = length cols).
  { rewrite length_imap, length_zip. lia. }
  split; [|exact Hrows].
  intros Hnil. rewrite Hnil in Hrows. destruct cols; [done|discriminate].
Qed.

(** C6: the build returns on every frame with at least one column and
    distinct labels; every table it returns has a record for each column of
    the frame, hence at least one, and every one of these records carries
    the defaults of the report type: "Ручной ввод" and "Ручное заполнение"
    for the two manual types, the empty algorithm and "База данных" for
    "Автоматический" and "ИЛА", and the system link "ИЛА One" for "ИЛА",
    empty for every other type. *)
Theorem transform_defaults self df report_type :
  (columns df ≠ [] → NoDup (columns df) →
   ∃ md, transform_to_metadata self df report_type = Returns md)
  ∧ ∀ md,
      transform_to_metadata self df report_type = Returns md →
      rows md ≠ []
      ∧ length (rows md) = length (columns df)
      ∧ ∀ r,
          r ∈ rows md →
          (report_type ∈ ["Ручной"; "Полуавтоматический"] →
           field md r "TechAlgorythm" = Some (Str "Ручной ввод")
           ∧ field md r "base_type_info" = Some (Str "Ручное заполнение"))
          ∧ (report_type ∈ ["Автоматический"; "ИЛА"] →
             field md r "TechAlgorythm" = Some (Str "")
             ∧ field md r "base_type_info" = Some (Str "База данных"))
          ∧ (report_type = "ИЛА" →
             field md r "related_it_system_info" = Some (Str "ИЛА One"))
          ∧ (report_type ≠ "ИЛА" →
             field md r "related_it_system_info" = Some (Str "")).
Proof.
  split; [apply transform_returns|].
  intros md Hmd.
  destruct (transform_returns_inv _ _ _ _ Hmd) as (types & Hlen & Hne & ->).
  cbn [rows].
  destruct (rows_of_columns
              (λ i ct, row_of self report_type (1 + i) ct.1 ct.2)
              (columns df) types Hlen Hne) as [Hsome Hrows].
  split; [exact Hsome|]. split; [exact Hrows|].
  intros r Hr. apply elem_of_lookup_imap_1 in Hr as (i & [c t] & -> & _).
  destruct (field_row_of self report_type (1 + i) c t
              (imap (λ i ct, row_of self report_type (1 + i) ct.1 ct.2)
                    (zip (columns df) types)))
    as (_ & _ & _ & Htech & Hsrc & Hsys & _).
  cbn [fst snd]. rewrite Htech, Hsrc, Hsys.
  unfold tech_default, source_default, system_link.
  split; [|split; [|split]].
  - intros Hin. now rewrite bool_decide_eq_true_2.
  - intros Hin. rewrite bool_decide_eq_false_2; [done|].
    intros Hin'. list_cases; congruence.
  - intros ->. reflexivity.
  - intros Hne'. now rewrite bool_decide_eq_false_2.
Qed.

(** C7: on a frame with at least one column, the build returns when the
    labels are distinct, and every table it returns has one record per
    column, in column order, the record of the i-th column (from 0)
    carrying the column's label, the index i+1 and the code
    [report_number_(i+1)]; the codes of a table are pairwise distinct.  The
    records the loop collects still have an empty code: the codes are
    assigned afterwards. *)
Theorem transform_records self df report_type :
  columns df ≠ [] →
  (NoDup (columns df) →
   ∃ md, transform_to_metadata self df report_type = Returns md)
  ∧ (∀ md,
       transform_to_metadata self df report_type = Returns md →
       length (rows md) = length (columns df)
       ∧ (∀ i column,
            columns df !! i = Some column →
            ∃ r, rows md !! i = Some r
              ∧ field md r "name" = Some (Str column)
              ∧ field md r "Noreportfield_info" = Some (Int (Z.of_nat (i + 1)))
              ∧ field md r "ReportCode_info"
                = Some (Str (report_number self +:+ "_"
                             +:+ format_int (Z.of_nat (i + 1)))))
       ∧ NoDup ((λ r, field md r "ReportCode_info") <$> rows md))
  ∧ (∀ metadata_list,
       metadata_loop df report_type 1 (columns df) = Returns metadata_list →
       Forall (λ d, dict_get d "ReportCode_info" = Str "") metadata_list).
Proof.
  intros Hne. split; [now apply transform_returns|]. split.
  - intros md Hmd.
    destruct (transform_returns_inv _ _ _ _ Hmd) as (types & Hlen & _ & ->).
    cbn [rows]. split; [|split].
    + rewrite length_imap, length_zip. lia.
    + intros i column Hi.
      destruct (lookup_lt_is_Some_2 types i) as [t Ht].
      { rewrite Hlen. eapply lookup_lt_Some. eassumption. }
      eexists. split.
      { apply rows_lookup; [assumption|]. eauto. }
      cbn [fst snd]. replace (i + 1) with (1 + i) by lia.
      destruct (field_row_of self report_type (1 + i) column t
                  (imap (λ i ct, row_of self report_type (1 + i) ct.1 ct.2)
                        (zip (columns df) types)))
        as (Hcode & Hidx & Hname & _).
      auto.
    + apply NoDup_alt. intros i j code Hi Hj.
      rewrite list_lookup_fmap in Hi, Hj.
      destruct (imap _ _ !! i) as [ri|] eqn:Eri; [|discriminate].
      destruct (imap _ _ !! j) as [rj|] eqn:Erj; [|discriminate].
      apply rows_lookup in Eri as (ci & ti & _ & _ & ->); [|assumption].
      apply rows_lookup in Erj as (cj & tj & _ & _ & ->); [|assumption].
      cbn [fst snd fmap option_fmap option_map] in Hi, Hj.
      destruct (field_row_of self report_type (1 + i) ci ti
                  (imap (λ i ct, row_of self report_type (1 + i) ct.1 ct.2)
                        (zip (columns df) types))) as (Hci & _).
      destruct (field_row_of self report_type (1 + j) cj tj
                  (imap (λ i ct, row_of self report_type (1 + i) ct.1 ct.2)
                        (zip (columns df) types))) as (Hcj & _).
      cbn zeta in Hci, Hcj. rewrite Hci in Hi. rewrite Hcj in Hj.
      rewrite <- Hj in Hi. injection Hi as Hi.
      apply code_inj in Hi. lia.
  - intros l Hl.
    destruct (metadata_loop_inv _ _ _ _ _ Hl) as (types & Hlen & ->).
    apply Forall_forall. intros d Hd.
    apply elem_of_lookup_imap_1 in Hd as (i & [c t] & -> & _). reflexivity.
Qed.

(** C10: for a report type that is neither "Ручной" nor
    "Полуавтоматический", documented or not, the build fails only where
    it fails for every report type, and returns on every frame with at
    least one column and distinct labels; every table it returns has a
    record for each column of the frame, hence at least one, and every one
    of these records has the empty algorithm and the source "База данных";
    the system link is "ИЛА One" exactly when the type is "ИЛА" and empty
    otherwise. *)
Theorem transform_other_report_type self df report_type :
  report_type ≠ "Ручной" → report_type ≠ "Полуавтоматический" →
  (∀ e report_type',
     transform_to_metadata self df report_type = Raises e →
     transform_to_metadata self df report_type' = Raises e)
  ∧ (columns df ≠ [] → NoDup (columns df) →
     ∃ md, transform_to_metadata self df report_type = Returns md)
  ∧ ∀ md,
      transform_to_metadata self df report_type = Returns md →
      rows md ≠ []
      ∧ length (rows md) = length (columns df)
      ∧ ∀ r,
          r ∈ rows md →
          field md r "TechAlgorythm" = Some (Str "")
          ∧ field md r "base_type_info" = Some (Str "База данных")
          ∧ (field md r "related_it_system_info" = Some (Str "ИЛА One")
             ↔ report_type = "ИЛА")
          ∧ (report_type ≠ "ИЛА" →
             field md r "related_it_system_info" = Some (Str "")).
Proof.
  intros Hn1 Hn2. split; [|split].
  - intros e rt'. apply transform_raises.
  - apply transform_returns.
  - intros md Hmd.
    destruct (transform_returns_inv _ _ _ _ Hmd) as (types & Hlen & Hne & ->).
    cbn [rows].
    destruct (rows_of_columns
                (λ i ct, row_of self report_type (1 + i) ct.1 ct.2)
                (columns df) types Hlen Hne) as [Hsome Hrows].
    split; [exact Hsome|]. split; [exact Hrows|].
    intros r Hr. apply elem_of_lookup_imap_1 in Hr as (i & [c t] & -> & _).
    destruct (field_row_of self report_type (1 + i) c t
                (imap (λ i ct, row_of self report_type (1 + i) ct.1 ct.2)
                      (zip (columns df) types)))
      as (_ & _ & _ & Htech & Hsrc & Hsys & _).
    cbn [fst snd]. rewrite Htech, Hsrc, Hsys.
    unfold tech_default, source_default, system_link.
    rewrite bool_decide_eq_false_2 by (intros Hin; list_cases; congruence).
    split; [done|]. split; [done|]. split; [split|].
    + case_bool_decide; [done|discriminate].
    + intros ->. reflexivity.
    + intros Hne'. now rewrite bool_decide_eq_false_2.
Qed.

End BuildTheorems.

(** ** Reading the worksheet back *)

Lemma value_at_put_cell r c v ws k :
  value_at (put_cell r c v ws) k
  = if decide (k = (r, c)) then Some v else value_at ws k.
Proof.
  unfold value_at, put_cell, with_cells, set_value. cbn [cells].
  destruct (decide (k = (r, c))) as [->|Hne].
  - now rewrite lookup_insert_eq.
  - now rewrite lookup_insert_ne.
Qed.

Lemma bold_at_put_cell r c v ws k :
  bold_at (put_cell r c v ws) k = bold_at ws k.
Proof.
  unfold bold_at, put_cell, with_cells, set_value. cbn [cells].
  destruct (decide (k = (r, c))) as [->|Hne].
  - now rewrite lookup_insert_eq.
  - now rewrite lookup_insert_ne.
Qed.

Lemma value_at_set_bold k' ws k :
  value_at (with_cells (set_bold k') ws) k = value_at ws k.
Proof.
  unfold value_at, with_cells, set_bold. cbn [cells].
  destruct (decide (k = k')) as [->|Hne].
  - rewrite lookup_insert_eq. now destruct (cells ws !! k').
  - now rewrite lookup_insert_ne.
Qed.

Lemma bold_at_set_bold k' ws k :
  bold_at (with_cells (set_bold k') ws) k
  = if decide (k = k') then true else bold_at ws k.
Proof.
  unfold bold_at, with_cells, set_bold. cbn [cells].
  destruct (decide (k = k')) as [->|Hne].
  - now rewrite lookup_insert_eq.
  - now rewrite lookup_insert_ne.
Qed.

Lemma lookup_get_or_create (k' : nat * nat) (m : gmap (nat * nat) Cell)
  (k : nat * nat) :
  default empty_cell (get_or_create k' m !! k) = default empty_cell (m !! k).
Proof.
  unfold get_or_create. destruct (m !! k') eqn:E; [reflexivity|].
  destruct (decide (k = k')) as [->|Hne].
  - now rewrite lookup_insert_eq, E.
  - now rewrite lookup_insert_ne.
Qed.

Lemma value_at_default ws k :
  value_at ws k = cell_value (default empty_cell (cells ws !! k)).
Proof. unfold value_at. now destruct (cells ws !! k). Qed.

Lemma value_at_mk t m h f w k :
  value_at {| title := t; cells := m; hidden_rows := h; freeze_panes := f;
              column_widths := w |} k
  = m !! k ≫= cell_value.
Proof. reflexivity. Qed.

Lemma bold_at_mk t m h f w k :
  bold_at {| title := t; cells := m; hidden_rows := h; freeze_panes := f;
             column_widths := w |} k
  = cell_bold (default empty_cell (m !! k)).
Proof. reflexivity. Qed.

Lemma value_at_cells ws k : value_at ws k = cells ws !! k ≫= cell_value.
Proof. reflexivity. Qed.

Lemma bold_at_cells ws k :
  bold_at ws k = cell_bold (default empty_cell (cells ws !! k)).
Proof. reflexivity. Qed.

Lemma lookup_value_get_or_create (k' : nat * nat) (m : gmap (nat * nat) Cell)
  (k : nat * nat) :
  get_or_create k' m !! k ≫= cell_value = m !! k ≫= cell_value.
Proof.
  assert (Hbind : ∀ o : option Cell,
            o ≫= cell_value = cell_value (default empty_cell o)).
  { now intros [c|]. }
  now rewrite !Hbind, lookup_get_or_create.
Qed.

Lemma value_at_get_or_create k' ws k :
  value_at (with_cells (get_or_create k') ws) k = value_at ws k.
Proof.
  rewrite !value_at_default. cbn [with_cells cells].
  now rewrite lookup_get_or_create.
Qed.

Lemma bold_at_get_or_create k' ws k :
  bold_at (with_cells (get_or_create k') ws) k = bold_at ws k.
Proof. unfold bold_at. cbn [with_cells cells]. now rewrite lookup_get_or_create. Qed.

(** ** Loops that keep an observation *)

Lemma for_enumerate_preserves {A S B} (obs : S → B) (body : nat → A → S → S) :
  (∀ i x s, obs (body i x s) = obs s) →
  ∀ l start s, obs (for_enumerate body start l s) = obs s.
Proof.
  intros Hbody. induction l as [|x l IH]; intros start s; [reflexivity|].
  simpl. now rewrite IH.
Qed.

Lemma for_enumerate_invariant {A S} (P : S → Prop) (body : nat → A → S → S) :
  (∀ i x s, P s → P (body i x s)) →
  ∀ l start s, P s → P (for_enumerate body start l s).
Proof.
  intros Hbody. induction l as [|x l IH]; intros start s Hs; [exact Hs|].
  simpl. apply IH. now apply Hbody.
Qed.

Lemma for_enumerate_ext {A S} (body body' : nat → A → S → S) :
  (∀ i x s, body i x s = body' i x s) →
  ∀ l start s, for_enumerate body start l s = for_enumerate body' start l s.
Proof.
  intros Hbody. induction l as [|x l IH]; intros start s; [reflexivity|].
  simpl. now rewrite Hbody, IH.
Qed.

Lemma fit_cells_preserves {B} (obs : Worksheet → B) col_idx :
  (∀ k ws, obs (with_cells (get_or_create k) ws) = obs ws) →
  ∀ row_idxs state,
    obs (fold_left (fit_cell col_idx) row_idxs state).1 = obs state.1.
Proof.
  intros Hget. induction row_idxs as [|row_idx row_idxs IH]; intros [ws m];
    [reflexivity|].
  simpl. rewrite IH. unfold fit_cell.
  destruct (truthy _ && _); cbn [fst]; apply Hget.
Qed.

Lemma fit_columns_preserves {B} (obs : Worksheet → B) metadata_df :
  (∀ k ws, obs (with_cells (get_or_create k) ws) = obs ws) →
  (∀ f ws, obs (with_widths f ws) = obs ws) →
  ∀ ws, obs (fit_columns metadata_df ws) = obs ws.
Proof.
  intros Hget Hwidth ws. unfold fit_columns.
  apply for_enumerate_preserves. intros col_idx letter ws'.
  unfold fit_column.
  destruct (fold_left _ _ _) as [ws'' m] eqn:E.
  rewrite Hwidth. change ws'' with (ws'', m).1. rewrite <- E.
  now rewrite fit_cells_preserves.
Qed.

(** ** Loops that write a row *)

Lemma write_row_value {A} (body : nat → A → Worksheet → Worksheet)
  (r : nat) (g : A → value) :
  (∀ c x ws k,
     value_at (body c x ws) k
     = if decide (k = (r, c)) then Some (g x) else value_at ws k) →
  ∀ l start ws k,
    value_at (for_enumerate body start l ws) k
    = if decide (k.1 = r ∧ start ≤ k.2 < start + length l)
      then g <$> l !! (k.2 - start)
      else value_at ws k.
Proof.
  intros Hbody. induction l as [|x l IH]; intros start ws [kr kc]; simpl.
  - case_decide; [lia|reflexivity].
  - rewrite IH, Hbody. simpl.
    destruct (decide (kr = r ∧ start + 1 ≤ kc < start + 1 + length l))
      as [[-> Hc]|Hno].
    + rewrite decide_True by lia.
      replace (kc - start) with (S (kc - (start + 1))) by lia. reflexivity.
    + destruct (decide ((kr, kc) = (r, start))) as [[= -> ->]|Hne].
      * rewrite decide_True by lia. now rewrite Nat.sub_diag.
      * case_decide as Hin; [|reflexivity].
        exfalso. destruct Hin as [-> Hin].
        assert (kc = start) by lia. subst. now apply Hne.
Qed.

Lemma write_row_bold {A} (body : nat → A → Worksheet → Worksheet) (r : nat) :
  (∀ c x ws k,
     bold_at (body c x ws) k
     = if decide (k = (r, c)) then true else bold_at ws k) →
  ∀ l start ws k,
    bold_at (for_enumerate body start l ws) k
    = if decide (k.1 = r ∧ start ≤ k.2 < start + length l)
      then true
      else bold_at ws k.
Proof.
  intros Hbody. induction l as [|x l IH]; intros start ws [kr kc]; simpl.
  - case_decide; [lia|reflexivity].
  - rewrite IH, Hbody. simpl.
    destruct (decide (kr = r ∧ start + 1 ≤ kc < start + 1 + length l))
      as [[-> Hc]|Hno].
    + now rewrite decide_True by lia.
    + destruct (decide ((kr, kc) = (r, start))) as [[= -> ->]|Hne].
      * now rewrite decide_True by lia.
      * case_decide as Hin; [|reflexivity].
        exfalso. destruct Hin as [-> Hin].
        assert (kc = start) by lia. subst. now apply Hne.
Qed.

(** The data rows: row [start + i] of the sheet holds the i-th row. *)
Lemma write_rows_value (data : list (list value)) :
  ∀ start ws k,
    value_at
      (for_enumerate
         (λ row_idx row ws,
            for_enumerate (λ col_idx value ws, put_cell row_idx col_idx value ws)
              1 row ws)
         start data ws) k
    = match data !! (k.1 - start) with
      | Some row =>
          if decide (start ≤ k.1 ∧ 1 ≤ k.2 ≤ length row)
          then row !! (k.2 - 1)
          else value_at ws k
      | None => value_at ws k
      end.
Proof.
  induction data as [|row data IH]; intros start ws [kr kc]; [reflexivity|].
  cbn [for_enumerate]. rewrite IH. cbn [fst snd].
  rewrite (write_row_value _ start id) by (intros; apply value_at_put_cell).
  cbn [fst snd]. rewrite option_fmap_id.
  destruct (decide (start + 1 ≤ kr)) as [Hge|Hlt].
  - replace (kr - start) with (S (kr - (start + 1))) by lia. cbn [lookup list_lookup].
    rewrite (decide_False (P := kr = start ∧ _)) by lia.
    destruct (data !! (kr - (start + 1))) as [row'|]; [|reflexivity].
    destruct (decide (start + 1 ≤ kr ∧ 1 ≤ kc ≤ length row')) as [Hin|Hout].
    + now rewrite decide_True by lia.
    + now rewrite decide_False by lia.
  - replace (kr - (start + 1)) with 0 by lia.
    destruct (decide (kr = start)) as [->|Hne].
    + rewrite Nat.sub_diag. cbn [lookup list_lookup].
      assert (Hskip : ∀ v : option value,
                 match data !! 0 with
                 | Some row' =>
                     if decide (start + 1 ≤ start ∧ 1 ≤ kc ≤ length row')
                     then row' !! (kc - 1) else v
                 | None => v
                 end = v).
      { intros v. destruct (data !! 0); [|reflexivity].
        now rewrite decide_False by lia. }
      rewrite Hskip.
      destruct (decide (start = start ∧ 1 ≤ kc < 1 + length row)) as [Hin|Hout].
      * now rewrite decide_True by lia.
      * now rewrite decide_False by lia.
    + replace (kr - start) with 0 by lia. cbn [lookup list_lookup].
      rewrite (decide_False (P := kr = start ∧ _)) by lia.
      rewrite (decide_False (P := start ≤ kr ∧ _)) by lia.
      destruct (data !! 0); [|reflexivity].
      now rewrite decide_False by lia.
Qed.

(** ** The exported sheet *)

Lemma blank_sheet_value k : value_at blank_sheet k = None.
Proof. unfold value_at, blank_sheet. cbn [cells]. now rewrite lookup_empty. Qed.

Lemma blank_sheet_bold k : bold_at blank_sheet k = false.
Proof. unfold bold_at, blank_sheet. cbn [cells]. now rewrite lookup_empty. Qed.

(** *** Checked writes *)

Lemma bind_value_spec (v : value) :
  bind_value v
  = if writable v then Returns (stored_value v)
    else Raises (IllegalCharacterError (format_value (stored_value v))).
Proof.
  destruct v as [|s|n]; try reflexivity.
  unfold bind_value, check_string, writable, stored_value. cbn [format_value].
  destruct (existsb _ _); reflexivity.
Qed.

Lemma ws_cell_spec r c (v : value) ws :
  ws_cell r c v ws
  = if writable v then Returns (put_cell r c (stored_value v) ws)
    else Raises (IllegalCharacterError (format_value (stored_value v))).
Proof. unfold ws_cell. rewrite bind_value_spec. now destruct (writable v). Qed.

Lemma write_row_returns r (row : list value) :
  forallb writable row = true →
  ∀ start ws,
    for_enumerate_raising (λ c v ws, ws_cell r c v ws) start row ws
    = Returns (for_enumerate (λ c v ws, put_cell r c v ws) start
                 (stored_value <$> row) ws).
Proof.
  induction row as [|v row IH]; intros Hall start ws; [reflexivity|].
  cbn [forallb] in Hall. apply andb_true_iff in Hall as [Hv Hall].
  cbn [for_enumerate_raising fmap list_fmap for_enumerate].
  rewrite ws_cell_spec, Hv. cbn [bind]. now apply IH.
Qed.

Lemma write_row_raises r (row : list value) :
  forallb writable row = false →
  ∀ start ws,
    ∃ text, for_enumerate_raising (λ c v ws, ws_cell r c v ws) start row ws
            = Raises (IllegalCharacterError text).
Proof.
  induction row as [|v row IH]; intros Hall start ws; [discriminate|].
  cbn [forallb] in Hall. cbn [for_enumerate_raising].
  rewrite ws_cell_spec. destruct (writable v); cbn [bind]; [|eauto].
  now apply IH.
Qed.

Lemma write_rows_returns (data : list (list value)) :
  forallb (forallb writable) data = true →
  ∀ start ws,
    for_enumerate_raising
      (λ row_idx row ws,
         for_enumerate_raising (λ c v ws, ws_cell row_idx c v ws) 1 row ws)
      start data ws
    = Returns
        (for_enumerate
           (λ row_idx row ws,
              for_enumerate (λ c v ws, put_cell row_idx c v ws) 1 row ws)
           start ((λ r : list value, stored_value <$> r) <$> data) ws).
Proof.
  induction data as [|row data IH]; intros Hall start ws; [reflexivity|].
  cbn [forallb] in Hall. apply andb_true_iff in Hall as [Hrow Hall].
  cbn [for_enumerate_raising fmap list_fmap for_enumerate].
  rewrite write_row_returns by assumption. cbn [bind]. now apply IH.
Qed.

Lemma write_rows_raises (data : list (list value)) :
  forallb (forallb writable) data = false →
  ∀ start ws,
    ∃ text,
      for_enumerate_raising
        (λ row_idx row ws,
           for_enumerate_raising (λ c v ws, ws_cell row_idx c v ws) 1 row ws)
        start data ws
      = Raises (IllegalCharacterError text).
Proof.
  induction data as [|row data IH]; intros Hall start ws; [discriminate|].
  cbn [forallb] in Hall. cbn [for_enumerate_raising].
  destruct (forallb writable row) eqn:Hrow.
  - rewrite write_row_returns by assumption. cbn [bind]. now apply IH.
  - destruct (write_row_raises start row Hrow 1 ws) as [text ->]. cbn [bind]. eauto.
Qed.

(** The header strings pass the check unchanged. *)
Lemma headers_writable :
  Forall (λ h, writable (Str h) = true ∧ stored_value (Str h) = Str h)
    technical_headers
  ∧ Forall (λ h, writable (Str h) = true ∧ stored_value (Str h) = Str h)
      user_headers.
Proof. split; apply (bool_decide_unpack _); vm_compute; exact I. Qed.

Lemma write_headers_returns r (step : nat → Worksheet → Worksheet)
  (headers : list string) :
  Forall (λ h, writable (Str h) = true ∧ stored_value (Str h) = Str h) headers →
  ∀ start ws,
    for_enumerate_raising
      (λ c h ws, let! ws := ws_cell r c (Str h) ws in Returns (step c ws))
      start headers ws
    = Returns (for_enumerate (λ c h ws, step c (put_cell r c (Str h) ws))
                 start headers ws).
Proof.
  induction 1 as [|h headers [Hw Hs] _ IH]; intros start ws; [reflexivity|].
  cbn [for_enumerate_raising for_enumerate].
  rewrite ws_cell_spec, Hw, Hs. cbn [bind]. apply IH.
Qed.

Lemma write_plain_headers_returns r (headers : list string) :
  Forall (λ h, writable (Str h) = true ∧ stored_value (Str h) = Str h) headers →
  ∀ start ws,
    for_enumerate_raising (λ c h ws, ws_cell r c (Str h) ws) start headers ws
    = Returns (for_enumerate (λ c h ws, put_cell r c (Str h) ws)
                 start headers ws).
Proof.
  induction 1 as [|h headers [Hw Hs] _ IH]; intros start ws; [reflexivity|].
  cbn [for_enumerate_raising for_enumerate].
  rewrite ws_cell_spec, Hw, Hs. cbn [bind]. apply IH.
Qed.

Lemma write_technical_headers_returns ws :
  write_technical_headers ws = Returns (put_technical_headers ws).
Proof.
  unfold write_technical_headers, put_technical_headers.
  apply write_plain_headers_returns, headers_writable.
Qed.

Lemma write_user_headers_returns ws :
  write_user_headers ws = Returns (put_user_headers ws).
Proof.
  unfold write_user_headers, put_user_headers.
  apply (write_headers_returns 2 (λ c ws, with_cells (set_bold (2, c)) ws)).
  apply headers_writable.
Qed.

Lemma write_cells_returns md ws :
  writable_table md = true →
  write_cells md ws = Returns (put_cells (stored md) ws).
Proof.
  intros Hall. unfold write_cells, put_cells, write_data, put_data.
  rewrite write_technical_headers_returns. cbn [bind].
  rewrite write_user_headers_returns. cbn [bind].
  now rewrite write_rows_returns by assumption.
Qed.

Lemma write_cells_raises md ws :
  writable_table md = false →
  ∃ text, write_cells md ws = Raises (IllegalCharacterError text).
Proof.
  intros Hall. unfold write_cells, write_data.
  rewrite write_technical_headers_returns. cbn [bind].
  rewrite write_user_headers_returns. cbn [bind].
  now apply write_rows_raises.
Qed.

Lemma stored_rows_length md : length (rows (stored md)) = length (rows md).
Proof. unfold stored. cbn [rows]. apply length_fmap. Qed.

Lemma fit_columns_rows md md' ws :
  length (rows md) = length (rows md') → fit_columns md ws = fit_columns md' ws.
Proof.
  intros Hlen. unfold fit_columns. apply for_enumerate_ext.
  intros col_idx letter ws'. unfold fit_column. now rewrite Hlen.
Qed.

Lemma create_excel_download_sheet md :
  writable_table md = true →
  create_excel_download md = Returns [sheet_of md].
Proof.
  intros Hall. unfold create_excel_download, Workbook.
  change {| title := "Атрибут отчета"; cells := _; hidden_rows := _;
            freeze_panes := _; column_widths := _ |} with blank_sheet.
  rewrite write_cells_returns by assumption. cbn [bind]. unfold sheet_of.
  now rewrite (fit_columns_rows md (stored md)) by now rewrite stored_rows_length.
Qed.

Lemma create_excel_download_raises md :
  writable_table md = false →
  ∃ text, create_excel_download md = Raises (IllegalCharacterError text).
Proof.
  intros Hall. unfold create_excel_download, Workbook.
  change {| title := "Атрибут отчета"; cells := _; hidden_rows := _;
            freeze_panes := _; column_widths := _ |} with blank_sheet.
  destruct (write_cells_raises md blank_sheet Hall) as [text ->]. cbn [bind]. eauto.
Qed.

Lemma create_excel_download_inv md wb :
  create_excel_download md = Returns wb →
  writable_table md = true ∧ wb = [sheet_of md].
Proof.
  intros Hwb. destruct (writable_table md) eqn:Hall.
  - rewrite create_excel_download_sheet in Hwb by assumption.
    injection Hwb as <-. now split.
  - destruct (create_excel_download_raises md Hall) as [text Htext]. congruence.
Qed.

Lemma header_value (headers : list string) (c : nat) :
  (if decide (1 ≤ c < 1 + length headers)
   then Str <$> headers !! (c - 1) else None)
  = match c with 0 => None | S j => Str <$> headers !! j end.
Proof.
  destruct c as [|j].
  - now rewrite decide_False by lia.
  - replace (S j - 1) with j by lia.
    case_decide as Hc; [reflexivity|].
    now rewrite lookup_ge_None_2 by lia.
Qed.

Lemma put_technical_headers_value ws k :
  value_at (put_technical_headers ws) k
  = if decide (k.1 = 1 ∧ 1 ≤ k.2 < 1 + length technical_headers)
    then Str <$> technical_headers !! (k.2 - 1)
    else value_at ws k.
Proof.
  apply (write_row_value _ 1 Str). intros. apply value_at_put_cell.
Qed.

Lemma put_user_headers_value ws k :
  value_at (put_user_headers ws) k
  = if decide (k.1 = 2 ∧ 1 ≤ k.2 < 1 + length user_headers)
    then Str <$> user_headers !! (k.2 - 1)
    else value_at ws k.
Proof.
  apply (write_row_value _ 2 Str).
  intros c x ws' k'. rewrite value_at_set_bold. apply value_at_put_cell.
Qed.

Lemma put_user_headers_bold ws k :
  bold_at (put_user_headers ws) k
  = if decide (k.1 = 2 ∧ 1 ≤ k.2 < 1 + length user_headers)
    then true
    else bold_at ws k.
Proof.
  apply (write_row_bold _ 2).
  intros c x ws' k'. rewrite bold_at_set_bold.
  case_decide; [reflexivity|]. apply bold_at_put_cell.
Qed.

Lemma put_technical_headers_bold ws k :
  bold_at (put_technical_headers ws) k = bold_at ws k.
Proof.
  apply (for_enumerate_preserves (λ ws, bold_at ws k)).
  intros. apply bold_at_put_cell.
Qed.

Lemma put_data_bold md ws k : bold_at (put_data md ws) k = bold_at ws k.
Proof.
  apply (for_enumerate_preserves (λ ws, bold_at ws k)).
  intros i row ws'. apply (for_enumerate_preserves (λ ws, bold_at ws k)).
  intros. apply bold_at_put_cell.
Qed.

Lemma put_data_value md ws k :
  value_at (put_data md ws) k
  = match rows md !! (k.1 - 3) with
    | Some row =>
        if decide (3 ≤ k.1 ∧ 1 ≤ k.2 ≤ length row) then row !! (k.2 - 1)
        else value_at ws k
    | None => value_at ws k
    end.
Proof. apply write_rows_value. Qed.

Lemma with_cells_props f ws : sheet_props (with_cells f ws) = sheet_props ws.
Proof. reflexivity. Qed.

Lemma put_cell_props r c v ws : sheet_props (put_cell r c v ws) = sheet_props ws.
Proof. reflexivity. Qed.

Lemma put_technical_headers_props ws :
  sheet_props (put_technical_headers ws) = sheet_props ws.
Proof.
  apply (for_enumerate_preserves sheet_props). intros. apply put_cell_props.
Qed.

Lemma put_user_headers_props ws :
  sheet_props (put_user_headers ws) = sheet_props ws.
Proof.
  apply (for_enumerate_preserves sheet_props). intros.
  rewrite with_cells_props. apply put_cell_props.
Qed.

Lemma put_data_props md ws : sheet_props (put_data md ws) = sheet_props ws.
Proof.
  apply (for_enumerate_preserves sheet_props). intros i row ws'.
  apply (for_enumerate_preserves sheet_props). intros. apply put_cell_props.
Qed.

Lemma hide_first_row_props ws :
  sheet_props (hide_first_row ws)
  = ((sheet_props ws).1.1, {[1]} ∪ (sheet_props ws).1.2, (sheet_props ws).2).
Proof. reflexivity. Qed.

Lemma freeze_header_rows_props ws :
  sheet_props (freeze_header_rows ws)
  = ((sheet_props ws).1.1, (sheet_props ws).1.2, Some (3, 1)).
Proof. reflexivity. Qed.

Lemma hide_first_row_value ws k : value_at (hide_first_row ws) k = value_at ws k.
Proof. reflexivity. Qed.

Lemma hide_first_row_bold ws k : bold_at (hide_first_row ws) k = bold_at ws k.
Proof. reflexivity. Qed.

Lemma freeze_header_rows_value ws k :
  value_at (freeze_header_rows ws) k = value_at ws k.
Proof. apply (value_at_get_or_create (3, 1)). Qed.

Lemma freeze_header_rows_bold ws k :
  bold_at (freeze_header_rows ws) k = bold_at ws k.
Proof. apply (bold_at_get_or_create (3, 1)). Qed.

Lemma put_cells_value md ws k :
  (∀ k', value_at ws k' = None) →
  value_at (put_cells md ws) k
  = match rows md !! (k.1 - 3) with
    | Some row =>
        if decide (3 ≤ k.1 ∧ 1 ≤ k.2 ≤ length row) then row !! (k.2 - 1)
        else if decide (k.1 = 2 ∧ 1 ≤ k.2 < 1 + length user_headers)
        then Str <$> user_headers !! (k.2 - 1)
        else if decide (k.1 = 1 ∧ 1 ≤ k.2 < 1 + length technical_headers)
        then Str <$> technical_headers !! (k.2 - 1)
        else None
    | None =>
        if decide (k.1 = 2 ∧ 1 ≤ k.2 < 1 + length user_headers)
        then Str <$> user_headers !! (k.2 - 1)
        else if decide (k.1 = 1 ∧ 1 ≤ k.2 < 1 + length technical_headers)
        then Str <$> technical_headers !! (k.2 - 1)
        else None
    end.
Proof.
  intros Hblank. unfold put_cells.
  rewrite put_data_value, freeze_header_rows_value, put_user_headers_value,
    hide_first_row_value, put_technical_headers_value, Hblank.
  reflexivity.
Qed.

Lemma put_cells_bold md ws k :
  (∀ k', bold_at ws k' = false) →
  bold_at (put_cells md ws) k
  = bool_decide (k.1 = 2 ∧ 1 ≤ k.2 ≤ length user_headers).
Proof.
  intros Hblank. unfold put_cells.
  rewrite put_data_bold, freeze_header_rows_bold, put_user_headers_bold,
    hide_first_row_bold, put_technical_headers_bold, Hblank.
  destruct (decide (k.1 = 2 ∧ 1 ≤ k.2 < 1 + length user_headers)).
  - now rewrite bool_decide_eq_true_2 by lia.
  - now rewrite bool_decide_eq_false_2 by lia.
Qed.

Lemma put_cells_props md ws :
  sheet_props (put_cells md ws)
  = (title ws, {[1]} ∪ hidden_rows ws, Some (3, 1)).
Proof.
  unfold put_cells.
  rewrite put_data_props, freeze_header_rows_props, put_user_headers_props,
    hide_first_row_props, put_technical_headers_props.
  reflexivity.
Qed.

Lemma field_by_position (md : DataFrame value) (r : list value) (j : nat)
  (key : string) :
  columns md = technical_headers →
  technical_headers !! j = Some key →
  field md r key = r !! j.
Proof.
  intros Hcols Hj. unfold field. rewrite Hcols.
  do 21 (destruct j as [|j]; [injection Hj as <-; reflexivity|]).
  discriminate.
Qed.

(** What the stores leave in the sheet of a frame. *)
Lemma sheet_layout (md : DataFrame value) :
  let ws := fit_columns md (put_cells md blank_sheet) in
  (∀ c, value_at ws (1, c)
        = match c with 0 => None | S j => Str <$> technical_headers !! j end)
  ∧ hidden_rows ws = {[1]}
  ∧ (∀ c, value_at ws (2, c)
          = match c with 0 => None | S j => Str <$> user_headers !! j end)
  ∧ (∀ k, bold_at ws k = bool_decide (k.1 = 2 ∧ 1 ≤ k.2 ≤ 21))
  ∧ freeze_panes ws = Some (3, 1)
  ∧ (∀ i j, value_at ws (3 + i, j + 1) = rows md !! i ≫= λ r, r !! j).
Proof.
  intros ws. subst ws.
  assert (Hvalue : ∀ k,
            value_at (fit_columns md (put_cells md blank_sheet)) k
            = value_at (put_cells md blank_sheet) k).
  { intros k. apply (fit_columns_preserves (λ ws, value_at ws k)).
    - intros. apply value_at_get_or_create.
    - reflexivity. }
  assert (Hprops : sheet_props (fit_columns md (put_cells md blank_sheet))
                   = ("Атрибут отчета", {[1]} ∪ ∅, Some (3, 1))).
  { rewrite (fit_columns_preserves sheet_props) by reflexivity.
    apply put_cells_props. }
  injection Hprops as _ Hhidden Hfreeze.
  split; [|split; [|split; [|split; [|split]]]].
  - intros c. rewrite Hvalue, put_cells_value by apply blank_sheet_value.
    cbn [fst snd].
    assert (Hrow : ∀ v : option value,
               match rows md !! 0 with
               | Some row =>
                   if decide (3 ≤ 1 ∧ 1 ≤ c ≤ length row) then row !! (c - 1)
                   else v
               | None => v
               end = v).
    { intros v. destruct (rows md !! 0); [|reflexivity].
      now rewrite decide_False by lia. }
    change (1 - 3) with 0. rewrite Hrow.
    rewrite decide_False by lia.
    rewrite <- (header_value technical_headers c).
    destruct (decide (1 ≤ c < 1 + length technical_headers)).
    + now rewrite decide_True by lia.
    + now rewrite decide_False by lia.
  - rewrite Hhidden. apply (right_id_L ∅ (∪)).
  - intros c. rewrite Hvalue, put_cells_value by apply blank_sheet_value.
    cbn [fst snd].
    assert (Hrow : ∀ v : option value,
               match rows md !! 0 with
               | Some row =>
                   if decide (3 ≤ 2 ∧ 1 ≤ c ≤ length row) then row !! (c - 1)
                   else v
               | None => v
               end = v).
    { intros v. destruct (rows md !! 0); [|reflexivity].
      now rewrite decide_False by lia. }
    change (2 - 3) with 0. rewrite Hrow.
    rewrite <- (header_value user_headers c).
    destruct (decide (1 ≤ c < 1 + length user_headers)).
    + now rewrite decide_True by lia.
    + now rewrite decide_False by lia.
  - intros k.
    rewrite (fit_columns_preserves (λ ws, bold_at ws k)).
    + now rewrite put_cells_bold by apply blank_sheet_bold.
    + intros. apply bold_at_get_or_create.
    + reflexivity.
  - exact Hfreeze.
  - intros i j. rewrite Hvalue, put_cells_value by apply blank_sheet_value.
    cbn [fst snd]. replace (3 + i - 3) with i by lia.
    destruct (rows md !! i) as [row|]; cbn [mbind option_bind].
    + replace (j + 1 - 1) with j by lia.
      case_decide as Hin; [reflexivity|].
      rewrite !decide_False by lia.
      symmetry. apply lookup_ge_None_2. lia.
    + now rewrite !decide_False by lia.
Qed.

Lemma stored_lookup (md : DataFrame value) (i j : nat) :
  rows (stored md) !! i ≫= (λ r, r !! j)
  = stored_value <$> (rows md !! i ≫= λ r, r !! j).
Proof.
  unfold stored. cbn [rows]. rewrite list_lookup_fmap.
  destruct (rows md !! i) as [r|]; [|reflexivity].
  cbn [fmap option_fmap option_map mbind option_bind].
  apply list_lookup_fmap.
Qed.

(** The first 32767 characters of a string that has no more are the
    string. *)
Lemma py_prefix_short (s : string) :
  ∀ n, (N.of_nat (py_len s) ≤ n)%N → py_prefix n s = s.
Proof.
  induction s as [|c s IH]; intros n Hn; [reflexivity|].
  cbn [py_prefix py_len] in *. case_bool_decide.
  - f_equal. now apply IH.
  - destruct (N.eqb_spec n 0) as [->|Hne]; [lia|].
    f_equal. apply IH. lia.
Qed.

(** C8: a metadata table whose strings hold no illegal control character
    within their first 32767 characters is exported as a workbook of one
    sheet.  Its row 1 holds the 21 technical keys, from [ReportCode_info]
    to [isToDelete_info], in columns 1 to 21 and nothing else, and is the
    hidden row; its row 2 holds the 21 labels, which are the bold cells of
    the sheet; the panes are frozen at the first cell of row 3; the i-th
    record (from 0) is row 3 + i, where column j + 1 holds the record's
    field for the j-th technical key, a string field cut to its first
    32767 characters.  For any other metadata table the export raises
    [IllegalCharacterError]. *)
Theorem export_layout (md : DataFrame value) :
  MetadataTable md →
  (writable_table md = true →
   ∃ ws, create_excel_download md = Returns [ws]
     ∧ length technical_headers = 21
     ∧ head technical_headers = Some "ReportCode_info"
     ∧ last technical_headers = Some "isToDelete_info"
     ∧ length user_headers = 21
     ∧ (∀ c, value_at ws (1, c)
             = match c with 0 => None | S j => Str <$> technical_headers !! j end)
     ∧ hidden_rows ws = {[1]}
     ∧ (∀ c, value_at ws (2, c)
             = match c with 0 => None | S j => Str <$> user_headers !! j end)
     ∧ (∀ k, bold_at ws k = bool_decide (k.1 = 2 ∧ 1 ≤ k.2 ≤ 21))
     ∧ freeze_panes ws = Some (3, 1)
     ∧ (∀ i j, value_at ws (3 + i, j + 1)
               = stored_value <$> (rows md !! i ≫= λ r, r !! j))
     ∧ (∀ i r j key,
          rows md !! i = Some r → technical_headers !! j = Some key →
          is_Some (field md r key)
          ∧ value_at ws (3 + i, j + 1) = stored_value <$> field md r key)
     ∧ (∀ s, (N.of_nat (py_len s) ≤ 32767)%N → stored_value (Str s) = Str s))
  ∧ (writable_table md = false →
     ∃ text, create_excel_download md = Raises (IllegalCharacterError text)).
Proof.
  intros [Hcols Hrows]. split; [|apply create_excel_download_raises].
  intros Hwritable. exists (sheet_of md).
  split; [now apply create_excel_download_sheet|].
  do 4 (split; [reflexivity|]).
  destruct (sheet_layout (stored md))
    as (Hrow1 & Hhidden & Hrow2 & Hbold & Hfreeze & Hdata).
  fold (sheet_of md) in Hrow1, Hhidden, Hrow2, Hbold, Hfreeze, Hdata.
  split; [exact Hrow1|]. split; [exact Hhidden|]. split; [exact Hrow2|].
  split; [exact Hbold|]. split; [exact Hfreeze|].
  split; [|split].
  - intros i j. now rewrite Hdata, stored_lookup.
  - intros i r j key Hi Hj.
    rewrite (field_by_position md r j key) by assumption.
    split.
    + apply lookup_lt_is_Some.
      rewrite Forall_forall in Hrows. rewrite (Hrows r).
      * eapply lookup_lt_Some. eassumption.
      * eapply list_elem_of_lookup_2. eassumption.
    + rewrite Hdata, stored_lookup, Hi. reflexivity.
  - intros s Hs. unfold stored_value. f_equal. now apply py_prefix_short.
Qed.

(** ** The tables of the build are metadata tables *)

Lemma transform_returns_table `{Runtime} self df report_type md :
  transform_to_metadata self df report_type = Returns md → MetadataTable md.
Proof.
  intros Hmd.
  destruct (transform_returns_inv _ _ _ _ Hmd) as (types & _ & _ & ->).
  split; [reflexivity|]. cbn [rows]. apply Forall_forall. intros r Hr.
  apply elem_of_lookup_imap_1 in Hr as (i & [c t] & -> & _). reflexivity.
Qed.

(** An empty frame is exported as the two header rows: no cell of row 3 or
    below has a value. *)
Lemma export_no_rows (cols : list string) (r c : nat) :
  3 ≤ r →
  ∃ ws, create_excel_download {| columns := cols; rows := [] |} = Returns [ws]
    ∧ value_at ws (r, c) = None.
Proof.
  intros Hr. eexists. split; [now apply create_excel_download_sheet|].
  unfold sheet_of.
  rewrite (fit_columns_preserves (λ ws, value_at ws (r, c))).
  - rewrite put_cells_value by apply blank_sheet_value.
    cbn [stored rows fst snd fmap list_fmap]. rewrite lookup_nil.
    now rewrite !decide_False by lia.
  - intros. apply value_at_get_or_create.
  - reflexivity.
Qed.

(** ** Runs on the samples *)

Example sample_build :
  (λ md, (λ r, (field md r "ReportCode_info", field md r "base_type_report_field"))
           <$> rows md)
    <$> match @transform_to_metadata Sample.runtime Sample.transformer
                Sample.frame "Ручной" with
        | Returns md => Some md
        | Raises _ => None
        end
  = Some [ (Some (Str "R007_1"), Some (Str "число"));
           (Some (Str "R007_2"), Some (Str "текст"));
           (Some (Str "R007_3"), Some (Str "флаг"));
           (Some (Str "R007_4"), Some (Str "дата")) ].
Proof. vm_compute. reflexivity. Qed.

Example sample_thresholds :
  @detect_data_type Sample.runtime Sample.dates_70 = "текст"
  ∧ @detect_data_type Sample.runtime Sample.dates_80 = "дата"
  ∧ @detect_data_type Sample.runtime Sample.numbers_80 = "текст"
  ∧ @detect_data_type Sample.runtime Sample.numbers_90 = "число".
Proof. vm_compute. auto. Qed.

Lemma transform_zero_columns_raises_witness :
  columns Sample.no_columns = []
  ∧ @transform_to_metadata Sample.runtime Sample.transformer
      Sample.no_columns "Автоматический"
    = Raises (KeyError "Noreportfield_info").
Proof.
  split; [reflexivity|].
  apply (@transform_zero_columns_raises Sample.runtime). reflexivity.
Defined.

Lemma detect_all_missing_is_text_witness :
  Forall (λ v, isna v = true) Sample.missing
  ∧ @detect_data_type Sample.runtime Sample.missing = "текст".
Proof.
  assert (Hall : Forall (λ v, isna v = true) Sample.missing).
  { repeat constructor. }
  split; [exact Hall|].
  exact (@detect_all_missing_is_text Sample.runtime Sample.missing Hall).
Defined.

Lemma detect_flag_priority_witness :
  @_is_numeric Sample.runtime <$> dropna Sample.ones = [true; true; true]
  ∧ @detect_data_type Sample.runtime Sample.ones = "флаг".
Proof.
  split; [reflexivity|].
  apply (@detect_flag_priority Sample.runtime Sample.ones).
  - vm_compute. discriminate.
  - apply (bool_decide_unpack _). vm_compute. exact I.
  - apply (bool_decide_unpack _). vm_compute. exact I.
Defined.

Lemma detect_date_iff_witness :
  (ratio (length (List.filter (@_is_date Sample.runtime) (dropna Sample.dates_70)))
         (length (dropna Sample.dates_70)) == 7 # 10)%Q
  ∧ @detect_data_type Sample.runtime Sample.dates_70 ≠ "дата".
Proof.
  assert (Hshare :
    (ratio (length (List.filter (@_is_date Sample.runtime)
                                (dropna Sample.dates_70)))
           (length (dropna Sample.dates_70)) == 7 # 10)%Q).
  { vm_compute. reflexivity. }
  split; [exact Hshare|].
  refine (proj2 (@detect_date_iff Sample.runtime Sample.dates_70 _ _) Hshare).
  - vm_compute. discriminate.
  - vm_compute. reflexivity.
Defined.

Lemma detect_number_iff_witness :
  (ratio (length (List.filter (@_is_numeric Sample.runtime)
                              (dropna Sample.numbers_80)))
         (length (dropna Sample.numbers_80)) == 8 # 10)%Q
  ∧ @detect_data_type Sample.runtime Sample.numbers_80 ≠ "число".
Proof.
  assert (Hshare :
    (ratio (length (List.filter (@_is_numeric Sample.runtime)
                                (dropna Sample.numbers_80)))
           (length (dropna Sample.numbers_80)) == 8 # 10)%Q).
  { vm_compute. reflexivity. }
  split; [exact Hshare|].
  refine (proj1 (proj2 (@detect_number_iff Sample.runtime Sample.numbers_80
                          _ _ _)) Hshare).
  - vm_compute. discriminate.
  - vm_compute. reflexivity.
  - vm_compute. discriminate.
Defined.

Lemma transform_defaults_witness :
  ∃ md r, @transform_to_metadata Sample.runtime Sample.transformer
            Sample.frame "ИЛА" = Returns md
    ∧ length (rows md) = 4
    ∧ r ∈ rows md
    ∧ field md r "TechAlgorythm" = Some (Str "")
    ∧ field md r "base_type_info" = Some (Str "База данных")
    ∧ field md r "related_it_system_info" = Some (Str "ИЛА One").
Proof.
  destruct (@transform_defaults Sample.runtime Sample.transformer
              Sample.frame "ИЛА") as [Hreturns Hrecords].
  destruct Hreturns as [md Hmd].
  - vm_compute. discriminate.
  - apply (bool_decide_unpack _). vm_compute. exact I.
  - destruct (Hrecords md Hmd) as (Hsome & Hlen & Hfields).
    destruct (rows md) as [|r rest] eqn:Erows; [now destruct Hsome|].
    exists md, r. rewrite Erows. split; [exact Hmd|]. split; [exact Hlen|].
    split; [apply list_elem_of_here|].
    destruct (Hfields r (list_elem_of_here _ _)) as (_ & Hauto & Hila & _).
    destruct Hauto as [Htech Hsrc].
    { apply elem_of_cons. right. apply elem_of_cons. now left. }
    split; [exact Htech|]. split; [exact Hsrc|]. now apply Hila.
Defined.

Lemma transform_records_witness :
  columns Sample.frame ≠ []
  ∧ ∃ md, @transform_to_metadata Sample.runtime Sample.transformer
            Sample.frame "Ручной" = Returns md
      ∧ length (rows md) = 4
      ∧ NoDup ((λ r, field md r "ReportCode_info") <$> rows md).
Proof.
  assert (Hne : columns Sample.frame ≠ []).
  { vm_compute. discriminate. }
  split; [exact Hne|].
  destruct (@transform_records Sample.runtime Sample.transformer
              Sample.frame "Ручной" Hne) as (Hreturns & Hrecords & _).
  destruct Hreturns as [md Hmd].
  { apply (bool_decide_unpack _). vm_compute. exact I. }
  exists md. split; [exact Hmd|].
  destruct (Hrecords md Hmd) as (Hlen & _ & Hcodes).
  split; [exact Hlen|exact Hcodes].
Defined.

Lemma export_layout_witness :
  MetadataTable Sample.table
  ∧ writable_table Sample.table = true
  ∧ ∃ ws, create_excel_download Sample.table = Returns [ws]
      ∧ hidden_rows ws = {[1]}
      ∧ freeze_panes ws = Some (3, 1)
      ∧ value_at ws (3, 1) = Some (Str "R007_1").
Proof.
  assert (Htable : MetadataTable Sample.table).
  { split; [reflexivity|]. repeat constructor. }
  assert (Hwritable : writable_table Sample.table = true).
  { vm_compute. reflexivity. }
  split; [exact Htable|]. split; [exact Hwritable|].
  destruct (proj1 (export_layout Sample.table Htable) Hwritable)
    as (ws & Hws & _ & _ & _ & _ & _ & Hhidden & _ & _ & Hfreeze & Hdata & _).
  exists ws. split; [exact Hws|]. split; [exact Hhidden|].
  split; [exact Hfreeze|]. refine (eq_trans (Hdata 0 0) _).
  vm_compute. reflexivity.
Defined.

Lemma transform_other_report_type_witness :
  "Квартальный" ≠ "Ручной" ∧ "Квартальный" ≠ "Полуавтоматический"
  ∧ ∃ md r, @transform_to_metadata Sample.runtime Sample.transformer
              Sample.frame "Квартальный" = Returns md
      ∧ length (rows md) = 4
      ∧ r ∈ rows md
      ∧ field md r "TechAlgorythm" = Some (Str "")
      ∧ field md r "base_type_info" = Some (Str "База данных")
      ∧ field md r "related_it_system_info" = Some (Str "").
Proof.
  assert (Hn1 : "Квартальный" ≠ "Ручной") by discriminate.
  assert (Hn2 : "Квартальный" ≠ "Полуавтоматический") by discriminate.
  split; [exact Hn1|]. split; [exact Hn2|].
  destruct (@transform_other_report_type Sample.runtime Sample.transformer
              Sample.frame "Квартальный" Hn1 Hn2) as (_ & Hreturns & Hrecords).
  destruct Hreturns as [md Hmd].
  - vm_compute. discriminate.
  - apply (bool_decide_unpack _). vm_compute. exact I.
  - destruct (Hrecords md Hmd) as (Hsome & Hlen & Hfields).
    destruct (rows md) as [|r rest] eqn:Erows; [now destruct Hsome|].
    exists md, r. rewrite Erows. split; [exact Hmd|]. split; [exact Hlen|].
    split; [apply list_elem_of_here|].
    destruct (Hfields r (list_elem_of_here _ _)) as (Htech & Hsrc & _ & Hlink).
    split; [exact Htech|]. split; [exact Hsrc|]. apply Hlink. discriminate.
Defined.

(** * Further properties of the program *)

(** ** Type detection *)

Lemma filter_length_perm {A} (p : A → bool) (l l' : list A) :
  l ≡ₚ l' → length (List.filter p l) = length (List.filter p l').
Proof.
  induction 1 as [|x l l' _ IH|x y l|l l' l'' _ IH1 _ IH2]; simpl.
  - reflexivity.
  - destruct (p x); simpl; now rewrite IH.
  - destruct (p x), (p y); reflexivity.
  - now rewrite IH1.
Qed.

Lemma dropna_idemp (values : Series) : dropna (dropna values) = dropna values.
Proof.
  unfold dropna. induction values as [|v values IH]; [reflexivity|].
  simpl. destruct (isna v) eqn:E; simpl; [exact IH|].
  rewrite E. simpl. now rewrite IH.
Qed.

Lemma str_replace_absent (old : ascii) (new s : string) :
  (∀ c, c ∈ String.list_ascii_of_string s → c ≠ old) →
  str_replace old new s = s.
Proof.
  induction s as [|c s IH]; intros Hno; [reflexivity|]. simpl in *.
  destruct (Ascii.eqb_spec c old) as [->|Hne].
  - exfalso. apply (Hno old); [apply list_elem_of_here|reflexivity].
  - f_equal. apply IH. intros c' Hc'. apply Hno. now apply list_elem_of_further.
Qed.

Lemma str_replace_comma_free (s : string) (c : ascii) :
  c ∈ String.list_ascii_of_string (str_replace "," "." s) → c ≠ ","%char.
Proof.
  induction s as [|a s IH]; simpl; [now intros ?%elem_of_nil|].
  destruct (Ascii.eqb_spec a ","%char) as [->|Hne]; simpl.
  - intros [->|Hc]%elem_of_cons; [discriminate|now apply IH].
  - intros [->|Hc]%elem_of_cons; [assumption|now apply IH].
Qed.

Lemma str_replace_space_free (s : string) (c : ascii) :
  c ∈ String.list_ascii_of_string (str_replace " " "" s) → c ≠ " "%char.
Proof.
  induction s as [|a s IH]; simpl; [now intros ?%elem_of_nil|].
  destruct (Ascii.eqb_spec a " "%char) as [->|Hne]; simpl.
  - apply IH.
  - intros [->|Hc]%elem_of_cons; [assumption|now apply IH].
Qed.

Lemma str_replace_space_keeps (s : string) (c : ascii) :
  c ∈ String.list_ascii_of_string (str_replace " " "" s) →
  c ∈ String.list_ascii_of_string s.
Proof.
  induction s as [|a s IH]; simpl; [done|].
  destruct (Ascii.eqb_spec a " "%char) as [->|Hne]; simpl.
  - intros Hc. apply list_elem_of_further. now apply IH.
  - intros [->|Hc]%elem_of_cons; [apply list_elem_of_here|].
    apply list_elem_of_further. now apply IH.
Qed.

(** Removing the spaces and turning the commas into periods commute. *)
Lemma str_replace_swap (s : string) :
  str_replace "," "." (str_replace " " "" s)
  = str_replace " " "" (str_replace "," "." s).
Proof.
  induction s as [|a s IH]; [reflexivity|]. simpl.
  destruct (Ascii.eqb_spec a " "%char) as [->|Hs]; simpl; [exact IH|].
  destruct (Ascii.eqb_spec a ","%char) as [->|Hc]; simpl.
  - now rewrite IH.
  - destruct (Ascii.eqb_spec a " "%char); [contradiction|]. now rewrite IH.
Qed.

Section DetectFurther.
Context `{Runtime}.

(** The result is one of the four type names. *)
Theorem detect_range (values : Series) :
  detect_data_type values ∈ ["текст"; "число"; "дата"; "флаг"].
Proof.
  unfold detect_data_type.
  repeat match goal with
         | |- context [if ?b then _ else _] => destruct b
         end;
    repeat first [apply list_elem_of_here | apply list_elem_of_further].
Qed.

(** The result depends on the present values only, and not on their
    order: two samples whose present values are the same up to order have
    the same type. *)
Theorem detect_present_values (values values' : Series) :
  dropna values ≡ₚ dropna values' →
  detect_data_type values = detect_data_type values'.
Proof.
  intros Hperm. unfold detect_data_type, flag_condition, normalize.
  rewrite !count_loop_filter.
  rewrite (filter_length_perm _is_date _ _ Hperm).
  rewrite (filter_length_perm _is_numeric _ _ Hperm).
  rewrite (Permutation_length Hperm).
  assert (Hset : (list_to_set ((λ v, str_lower (str_strip (py_str v)))
                                 <$> dropna values) : gset string)
                 = list_to_set ((λ v, str_lower (str_strip (py_str v)))
                                  <$> dropna values')).
  { apply list_to_set_perm_L. now apply fmap_Permutation. }
  now rewrite Hset.
Qed.

(** The sample is a flag exactly when it has a present value, its distinct
    normalised values all belong to the vocabulary, and there are at most
    three of them. *)
Theorem detect_flag_iff (values : Series) :
  detect_data_type values = "флаг"
  ↔ dropna values ≠ []
    ∧ (list_to_set (normalize (dropna values)) : gset string) ⊆ bool_indicators
    ∧ size (list_to_set (normalize (dropna values)) : gset string) ≤ 3.
Proof.
  unfold detect_data_type, flag_condition. split.
  - destruct (dropna values) as [|v clean] eqn:E; [discriminate|].
    rewrite bool_decide_eq_false_2 by discriminate.
    destruct (bool_decide (_ ⊆ _)) eqn:Esub; simpl.
    + destruct (bool_decide (_ ≤ 3)) eqn:Esize.
      * intros _. split; [discriminate|].
        split; [now apply bool_decide_eq_true in Esub
               |now apply bool_decide_eq_true in Esize].
      * repeat match goal with
               | |- context [if ?b then _ else _] => destruct b
               end; discriminate.
    + repeat match goal with
             | |- context [if ?b then _ else _] => destruct b
             end; discriminate.
  - intros (Hne & Hsub & Hsize).
    rewrite bool_decide_eq_false_2.
    + now rewrite !bool_decide_eq_true_2 by assumption.
    + destruct (dropna values); [done|discriminate].
Qed.

(** [_is_numeric] reads a decimal comma as a period and ignores spaces: a
    value, the value with its commas replaced, and the value without its
    spaces are judged alike. *)
Theorem is_numeric_separators (s : string) :
  _is_numeric (Scalar (str_replace "," "." s)) = _is_numeric (Scalar s)
  ∧ _is_numeric (Scalar (str_replace " " "" s)) = _is_numeric (Scalar s).
Proof.
  unfold _is_numeric. cbn [isna py_str]. split; f_equal.
  - f_equal. apply str_replace_absent. apply str_replace_comma_free.
  - rewrite str_replace_swap. apply str_replace_absent.
    apply str_replace_space_free.
Qed.

End DetectFurther.

(** ** The build *)

Lemma positions_spec (label : string) (cols : list string) :
  ∀ i p, p ∈ positions label i cols
         ↔ ∃ j, p = i + j ∧ cols !! j = Some label.
Proof.
  induction cols as [|c cols IH]; intros i p; simpl.
  - split; [now intros ?%elem_of_nil|now intros (j & _ & ?)].
  - assert (Hrest : p ∈ positions label (i + 1) cols
                    ↔ ∃ j, p = i + S j ∧ cols !! j = Some label).
    { rewrite IH. split; intros (j & -> & Hj); exists j; split; [lia|done|lia|done]. }
    case_bool_decide as Hc.
    + subst c. rewrite elem_of_cons, Hrest. split.
      * intros [->|(j & -> & Hj)]; [exists 0|exists (S j)]; split; [lia|done|done|done].
      * intros ([|j] & -> & Hj); [left; lia|right; eauto].
    + rewrite Hrest. split.
      * intros (j & -> & Hj). exists (S j). now split.
      * intros ([|j] & -> & Hj); [simpl in Hj; congruence|eauto].
Qed.

Lemma getitem_present {A} `{Inhabited A} (df : DataFrame A) (label : string) :
  label ∈ columns df → ∃ selected, getitem df label = Returns selected.
Proof.
  intros [j Hj]%list_elem_of_lookup_1. unfold getitem.
  destruct (positions label 0 (columns df)) as [|p [|q ps]] eqn:E; eauto.
  exfalso. assert (Hin : 0 + j ∈ positions label 0 (columns df)).
  { apply positions_spec. eauto. }
  rewrite E in Hin. now apply elem_of_nil in Hin.
Qed.

(** A label carried by two columns selects a frame. *)
Lemma getitem_repeated {A} `{Inhabited A} (df : DataFrame A) (label : string)
  (i j : nat) :
  columns df !! i = Some label → columns df !! j = Some label → i ≠ j →
  ∃ ps, i ∈ ps ∧ (∀ p, p ∈ ps → columns df !! p = Some label)
    ∧ getitem df label
      = Returns (SubFrame {| columns := (λ _, label) <$> ps;
                             rows := (λ r, (λ p, r !!! p) <$> ps) <$> rows df |}).
Proof.
  intros Hi Hj Hne. unfold getitem.
  assert (Hin : ∀ p, p ∈ positions label 0 (columns df)
                     ↔ columns df !! p = Some label).
  { intros p. rewrite positions_spec. split.
    - intros (k & -> & Hk). exact Hk.
    - intros Hp. exists p. now split. }
  destruct (positions label 0 (columns df)) as [|p [|q ps]] eqn:E.
  - apply Hin in Hi. now apply elem_of_nil in Hi.
  - apply Hin in Hi. apply Hin in Hj.
    apply list_elem_of_singleton in Hi. apply list_elem_of_singleton in Hj.
    congruence.
  - exists (p :: q :: ps). split; [now apply Hin|]. split; [|reflexivity].
    intros p'. apply Hin.
Qed.

Section BuildFurther.
Context `{Runtime}.

Lemma column_type_raises df column e :
  column_type df column = Raises e →
  column ∈ columns df → e = AttributeError "str".
Proof.
  unfold column_type. intros He Hin.
  destruct (getitem_present df column Hin) as [selected Hsel].
  rewrite Hsel in He. simpl in He. destruct selected as [values|sub];
    simpl in He; [discriminate|].
  case_bool_decide; [discriminate|]. now injection He as <-.
Qed.

Lemma metadata_loop_types df report_type idx cols l :
  metadata_loop df report_type idx cols = Returns l →
  ∃ types, Forall2 (λ c t, column_type df c = Returns t) cols types
    ∧ l = imap (λ i ct, record_of report_type (idx + i) ct.1 ct.2)
               (zip cols types).
Proof.
  revert idx l. induction cols as [|column rest IH]; intros idx l Hl.
  - injection Hl as <-. exists []. split; [constructor|reflexivity].
  - rewrite metadata_loop_cons in Hl.
    destruct (column_type df column) as [t|e] eqn:Et; [|discriminate].
    simpl in Hl.
    destruct (metadata_loop df report_type (idx + 1) rest) as [l'|e] eqn:E;
      [|discriminate].
    injection Hl as <-. destruct (IH _ _ E) as (types & Htypes & ->).
    exists (t :: types). split; [now constructor|].
    simpl. rewrite Nat.add_0_r. f_equal.
    apply imap_ext. intros i [c t'] _. simpl. f_equal. lia.
Qed.

Lemma metadata_loop_raises_inv df report_type idx cols e :
  metadata_loop df report_type idx cols = Raises e →
  ∃ column, column ∈ cols ∧ column_type df column = Raises e.
Proof.
  revert idx. induction cols as [|column rest IH]; intros idx He;
    [discriminate|].
  rewrite metadata_loop_cons in He.
  destruct (column_type df column) as [t|e'] eqn:Et.
  - simpl in He.
    destruct (metadata_loop df report_type (idx + 1) rest) as [l|e''] eqn:E;
      [discriminate|].
    injection He as ->. destruct (IH _ E) as (c & Hc & Hraises).
    exists c. split; [now apply list_elem_of_further|exact Hraises].
  - injection He as ->. exists column. split; [apply list_elem_of_here|exact Et].
Qed.

(** The report type reaches the records through the three defaults only. *)
Lemma metadata_loop_defaults df rt rt' idx cols :
  tech_default rt = tech_default rt' →
  source_default rt = source_default rt' →
  system_link rt = system_link rt' →
  metadata_loop df rt idx cols = metadata_loop df rt' idx cols.
Proof.
  intros Ht Hs Hl. revert idx.
  induction cols as [|column rest IH]; intros idx; [reflexivity|].
  rewrite !metadata_loop_cons. destruct (column_type df column); [|reflexivity].
  simpl. rewrite IH. unfold record_of. now rewrite Ht, Hs, Hl.
Qed.

Lemma transform_returns_types self df report_type md :
  transform_to_metadata self df report_type = Returns md →
  ∃ types, Forall2 (λ c t, column_type df c = Returns t) (columns df) types
    ∧ md = {| columns := technical_headers;
              rows := imap (λ i ct, row_of self report_type (1 + i) ct.1 ct.2)
                           (zip (columns df) types) |}.
Proof.
  intros Hmd. destruct (decide (columns df = [])) as [Hnil|Hne].
  { rewrite transform_no_columns in Hmd by assumption. discriminate. }
  unfold transform_to_metadata in Hmd.
  destruct (metadata_loop df report_type 1 (columns df)) as [l|e] eqn:El;
    [|discriminate].
  simpl in Hmd.
  destruct (metadata_loop_types _ _ _ _ _ El) as (types & Htypes & ->).
  rewrite assign_codes_records in Hmd
    by (try assumption; symmetry; eapply Forall2_length; eassumption).
  injection Hmd as <-. eauto.
Qed.

(** The fields the loop fills with constants: on every record of every
    returned table the change indicator is "нет", the required flag is
    "да", the attribute kind is "Базовый", and the eleven fields left for
    later completion are empty. *)
Theorem transform_constant_fields self df report_type md r :
  transform_to_metadata self df report_type = Returns md →
  r ∈ rows md →
  field md r "algorithms_change_info" = Some (Str "нет")
  ∧ field md r "required_attribute_info" = Some (Str "да")
  ∧ field md r "base_calc_ref_ind_info" = Some (Str "Базовый")
  ∧ Forall (λ key, field md r key = Some (Str ""))
      [ "description"; "TechAsIs"; "BussAlgorythm"; "dbobjectlink";
        "reportfields_codes"; "reportfields_names"; "reportfields_parent_term";
        "reportfields_domain"; "codeTable_info"; "example"; "isToDelete_info" ].
Proof.
  intros Hmd Hr.
  destruct (transform_returns_inv _ _ _ _ Hmd) as (types & _ & _ & ->).
  cbn [rows] in Hr. apply elem_of_lookup_imap_1 in Hr as (i & [c t] & -> & _).
  repeat split. repeat constructor.
Qed.

(** With distinct labels, the type written in the record of a column is
    the type [detect_data_type] finds for the values of that column. *)
Theorem transform_types self df report_type md i column :
  NoDup (columns df) →
  transform_to_metadata self df report_type = Returns md →
  columns df !! i = Some column →
  ∃ r, rows md !! i = Some r
    ∧ field md r "base_type_report_field"
      = Some (Str (detect_data_type ((λ row, row !!! i) <$> rows df))).
Proof.
  intros Hnd Hmd Hi.
  destruct (transform_returns_types _ _ _ _ Hmd) as (types & Htypes & ->).
  destruct (Forall2_lookup_l _ _ _ _ _ Htypes Hi) as (t & Ht & Htype).
  unfold column_type in Htype.
  rewrite (getitem_unique df column i) in Htype by assumption.
  simpl in Htype. injection Htype as <-.
  eexists. split.
  - cbn [rows]. apply rows_lookup.
    + symmetry. eapply Forall2_length. eassumption.
    + eauto.
  - reflexivity.
Qed.

(** The build fails in two ways only: with [KeyError] on the index column
    when the frame has no columns, and with [AttributeError] on [.str]
    otherwise, and then a label is repeated. *)
Theorem transform_failures self df report_type e :
  transform_to_metadata self df report_type = Raises e →
  (columns df = [] ∧ e = KeyError "Noreportfield_info")
  ∨ (columns df ≠ [] ∧ ¬ NoDup (columns df) ∧ e = AttributeError "str").
Proof.
  intros He. destruct (decide (columns df = [])) as [Hnil|Hne].
  { left. split; [exact Hnil|].
    rewrite transform_no_columns in He by assumption. now injection He as <-. }
  right. split; [exact Hne|]. split.
  - intros Hnd. destruct (transform_returns self df report_type Hne Hnd)
      as [md Hmd]. congruence.
  - unfold transform_to_metadata in He.
    destruct (metadata_loop df report_type 1 (columns df)) as [l|e'] eqn:El.
    + simpl in He.
      destruct (metadata_loop_inv _ _ _ _ _ El) as (types & Hlen & ->).
      rewrite assign_codes_records in He by assumption. discriminate.
    + simpl in He. injection He as ->.
      destruct (metadata_loop_raises_inv _ _ _ _ _ El) as (c & Hc & Hraises).
      eapply column_type_raises; eassumption.
Qed.

(** A label carried by two columns makes the build fail as soon as a row
    of the frame has all its cells present. *)
Theorem transform_repeated_label self df report_type i j column row :
  columns df !! i = Some column → columns df !! j = Some column → i ≠ j →
  row ∈ rows df → length row = length (columns df) →
  Forall (λ v, isna v = false) row →
  transform_to_metadata self df report_type = Raises (AttributeError "str").
Proof.
  intros Hi Hj Hne Hrow Hlen Hpresent.
  destruct (transform_to_metadata self df report_type) as [md|e] eqn:E.
  - exfalso.
    destruct (transform_returns_types _ _ _ _ E) as (types & Htypes & _).
    destruct (Forall2_lookup_l _ _ _ _ _ Htypes Hi) as (t & _ & Htype).
    unfold column_type in Htype.
    destruct (getitem_repeated df column i j Hi Hj Hne)
      as (ps & _ & Hps & Hsel).
    rewrite Hsel in Htype. simpl in Htype.
    case_bool_decide as Hdrop; [|discriminate].
    unfold dropna_rows in Hdrop. cbn [rows] in Hdrop.
    assert (Hkept : (λ p, row !!! p) <$> ps
                    ∈ List.filter (forallb (λ v, negb (isna v)))
                        ((λ r, (λ p, r !!! p) <$> ps) <$> rows df)).
    { apply list_elem_of_In, filter_In. split.
      - apply list_elem_of_In. apply list_elem_of_fmap. eauto.
      - apply forallb_forall. intros v Hv.
        apply list_elem_of_In, list_elem_of_fmap in Hv as (p & -> & Hp).
        assert (Hlt : p < length row).
        { rewrite Hlen. eapply lookup_lt_Some. apply Hps. exact Hp. }
        destruct (lookup_lt_is_Some_2 row p Hlt) as [v Hv].
        rewrite (list_lookup_total_correct _ _ _ Hv).
        rewrite Forall_forall in Hpresent.
        rewrite (Hpresent v); [reflexivity|].
        eapply list_elem_of_lookup_2. eassumption. }
    destruct (List.filter _ _); [now apply elem_of_nil in Hkept|discriminate].
  - f_equal. destruct (transform_to_metadata self df report_type) eqn:E';
      [discriminate|].
    injection E as ->.
    assert (Hne' : columns df ≠ []).
    { intros Hnil. rewrite Hnil in Hi. discriminate. }
    unfold transform_to_metadata in E'.
    destruct (metadata_loop df report_type 1 (columns df)) as [l|e'] eqn:El.
    + simpl in E'.
      destruct (metadata_loop_inv _ _ _ _ _ El) as (types & Hlen' & ->).
      rewrite assign_codes_records in E' by assumption. discriminate.
    + simpl in E'. injection E' as ->.
      destruct (metadata_loop_raises_inv _ _ _ _ _ El) as (c & Hc & Hraises).
      eapply column_type_raises; eassumption.
Qed.

(** The two manual report types give the same table, and so do
    "Автоматический" and every string that is neither a manual type nor
    "ИЛА". *)
Theorem transform_report_type_classes self df :
  transform_to_metadata self df "Ручной"
  = transform_to_metadata self df "Полуавтоматический"
  ∧ ∀ report_type,
      report_type ∉ ["Ручной"; "Полуавтоматический"; "ИЛА"] →
      transform_to_metadata self df report_type
      = transform_to_metadata self df "Автоматический".
Proof.
  unfold transform_to_metadata. split.
  - now rewrite (metadata_loop_defaults df "Ручной" "Полуавтоматический").
  - intros rt Hrt.
    rewrite (metadata_loop_defaults df rt "Автоматический"); [reflexivity|..].
    + unfold tech_default. rewrite bool_decide_eq_false_2; [reflexivity|].
      intros Hin. apply Hrt. list_cases; subst;
        repeat first [apply list_elem_of_here | apply list_elem_of_further].
    + unfold source_default. rewrite bool_decide_eq_false_2; [reflexivity|].
      intros Hin. apply Hrt. list_cases; subst;
        repeat first [apply list_elem_of_here | apply list_elem_of_further].
    + unfold system_link. rewrite bool_decide_eq_false_2; [reflexivity|].
      intros ->. apply Hrt.
      repeat first [apply list_elem_of_here | apply list_elem_of_further].
Qed.

End BuildFurther.

(** ** The export *)

Lemma export_sheet_value md k :
  value_at (fit_columns md (put_cells md blank_sheet)) k
  = value_at (put_cells md blank_sheet) k.
Proof.
  apply (fit_columns_preserves (λ ws, value_at ws k)).
  - intros. apply value_at_get_or_create.
  - reflexivity.
Qed.

(** The cell of row [3 + i] and column [j + 1] after the cell writes. *)
Lemma put_cells_data md i j :
  value_at (put_cells md blank_sheet) (3 + i, j + 1)
  = rows md !! i ≫= λ r, r !! j.
Proof.
  rewrite put_cells_value by apply blank_sheet_value.
  cbn [fst snd]. replace (3 + i - 3) with i by lia.
  destruct (rows md !! i) as [row|]; cbn [mbind option_bind].
  - replace (j + 1 - 1) with j by lia.
    case_decide as Hin; [reflexivity|].
    rewrite !decide_False by lia.
    symmetry. apply lookup_ge_None_2. lia.
  - now rewrite !decide_False by lia.
Qed.

(** *** Strings the check accepts *)

Lemma clean_cons (c : ascii) (s : string) :
  clean (String c s) = negb (illegal_character c) && clean s.
Proof. unfold clean. cbn [String.list_ascii_of_string existsb]. apply negb_orb. Qed.

Lemma clean_append (a b : string) : clean (a +:+ b) = clean a && clean b.
Proof.
  induction a as [|c a IH]; [reflexivity|].
  change (String c a +:+ b) with (String c (a +:+ b)).
  rewrite !clean_cons, IH. apply andb_assoc.
Qed.

Lemma clean_prefix (s : string) :
  clean s = true → ∀ n, clean (py_prefix n s) = true.
Proof.
  induction s as [|c s IH]; intros Hs n; [reflexivity|].
  rewrite clean_cons in Hs. apply andb_true_iff in Hs as [Hc Hs].
  cbn [py_prefix]. case_bool_decide.
  - rewrite clean_cons, Hc. now apply IH.
  - destruct (N.eqb n 0); [reflexivity|]. rewrite clean_cons, Hc. now apply IH.
Qed.

Lemma clean_writable (s : string) : clean s = true → writable (Str s) = true.
Proof. intros Hs. unfold writable. now apply (clean_prefix s Hs 32767%N). Qed.

Lemma clean_uint (d : Decimal.uint) : clean (NilEmpty.string_of_uint d) = true.
Proof.
  induction d; cbn [NilEmpty.string_of_uint]; [reflexivity|..];
    rewrite clean_cons; now rewrite IHd.
Qed.

Lemma clean_format_int (n : Z) : clean (format_int n) = true.
Proof.
  unfold format_int.
  assert (Huint : ∀ d, clean (NilZero.string_of_uint d) = true).
  { intros d. unfold NilZero.string_of_uint. destruct d; try reflexivity;
      apply clean_uint. }
  destruct (Z.to_int n) as [d|d]; cbn [NilZero.string_of_int].
  - apply Huint.
  - rewrite clean_cons. now rewrite Huint.
Qed.

Lemma type_names_stored (t : string) :
  t ∈ ["текст"; "число"; "дата"; "флаг"] →
  writable (Str t) = true ∧ stored_value (Str t) = Str t.
Proof. intros Ht. list_cases; subst; split; vm_compute; reflexivity. Qed.

Lemma row_of_stored self report_type idx column data_type :
  clean (report_number self) = true → clean column = true →
  data_type ∈ ["текст"; "число"; "дата"; "флаг"] →
  forallb writable (row_of self report_type idx column data_type) = true
  ∧ stored_value <$> row_of self report_type idx column data_type
    = [ Str (py_prefix 32767
               (report_number self +:+ "_" +:+ format_int (Z.of_nat idx)));
        Int (Z.of_nat idx); Str (py_prefix 32767 column); Str ""; Str "";
        Str ""; Str (tech_default report_type); Str "нет"; Str "";
        Str (source_default report_type); Str (system_link report_type);
        Str ""; Str ""; Str ""; Str ""; Str "да"; Str data_type;
        Str "Базовый"; Str ""; Str ""; Str "" ].
Proof.
  intros Hrn Hcol Ht.
  destruct (type_names_stored data_type Ht) as [Htw Hts].
  assert (Hcode : writable (Str (report_number self +:+ "_"
                                 +:+ format_int (Z.of_nat idx))) = true).
  { apply clean_writable. rewrite !clean_append, Hrn, clean_format_int.
    reflexivity. }
  assert (Hdefaults :
    (writable (Str (tech_default report_type)) = true
     ∧ stored_value (Str (tech_default report_type))
       = Str (tech_default report_type))
    ∧ (writable (Str (source_default report_type)) = true
       ∧ stored_value (Str (source_default report_type))
         = Str (source_default report_type))
    ∧ (writable (Str (system_link report_type)) = true
       ∧ stored_value (Str (system_link report_type))
         = Str (system_link report_type))).
  { unfold tech_default, source_default, system_link.
    repeat split; repeat case_bool_decide; vm_compute; reflexivity. }
  destruct Hdefaults as ((Hw1 & Hs1) & (Hw2 & Hs2) & (Hw3 & Hs3)).
  unfold row_of. cbn [forallb fmap list_fmap].
  rewrite Hcode, (clean_writable column Hcol), Htw, Hw1, Hw2, Hw3.
  rewrite Hts, Hs1, Hs2, Hs3. split; reflexivity.
Qed.

Section BuildExport.
Context `{Runtime}.

Lemma column_type_range df column t :
  column_type df column = Returns t → t ∈ ["текст"; "число"; "дата"; "флаг"].
Proof.
  unfold column_type. destruct (getitem df column) as [[values|sub]|e];
    simpl; [| |discriminate].
  - intros [= <-]. unfold detect_data_type.
    repeat match goal with
           | |- context [if ?b then _ else _] => destruct b
           end;
      repeat first [apply list_elem_of_here | apply list_elem_of_further].
  - case_bool_decide; [|discriminate]. intros [= <-]. apply list_elem_of_here.
Qed.

(** Build, then export: when the report number and the column labels hold
    no illegal control character, the export of the built table returns a
    sheet, and the record of the [i]-th column (from 0) is its row [3 + i],
    with the code in column A, the index in column B, the column's label
    in column C (code and label cut to 32767 characters) and the type in
    column Q. *)
Theorem build_then_export self df report_type md :
  clean (report_number self) = true →
  Forall (λ column, clean column = true) (columns df) →
  transform_to_metadata self df report_type = Returns md →
  ∃ ws, create_excel_download md = Returns [ws]
    ∧ ∀ i column,
        columns df !! i = Some column →
        ∃ data_type,
          value_at ws (3 + i, 1)
          = Some (Str (py_prefix 32767
                         (report_number self +:+ "_"
                          +:+ format_int (Z.of_nat (i + 1)))))
          ∧ value_at ws (3 + i, 2) = Some (Int (Z.of_nat (i + 1)))
          ∧ value_at ws (3 + i, 3) = Some (Str (py_prefix 32767 column))
          ∧ value_at ws (3 + i, 17) = Some (Str data_type)
          ∧ data_type ∈ ["текст"; "число"; "дата"; "флаг"].
Proof.
  intros Hrn Hcols Hmd.
  destruct (transform_returns_types _ _ _ _ Hmd) as (types & Htypes & ->).
  set (md := {| columns := technical_headers; rows := imap _ _ |}).
  assert (Hlen : length types = length (columns df)).
  { symmetry. eapply Forall2_length. eassumption. }
  assert (Hrow : ∀ i column,
            columns df !! i = Some column →
            ∃ t, rows md !! i = Some (row_of self report_type (1 + i) column t)
              ∧ clean column = true
              ∧ t ∈ ["текст"; "число"; "дата"; "флаг"]).
  { intros i column Hi.
    destruct (Forall2_lookup_l _ _ _ _ _ Htypes Hi) as (t & Ht & Htype).
    exists t. split; [|split].
    - subst md. cbn [rows]. apply rows_lookup; [exact Hlen|]. eauto.
    - rewrite Forall_forall in Hcols. apply Hcols.
      eapply list_elem_of_lookup_2. eassumption.
    - eapply column_type_range. eassumption. }
  assert (Hwritable : writable_table md = true).
  { unfold writable_table. apply forallb_forall. intros r Hr.
    apply list_elem_of_In in Hr. subst md. cbn [rows] in Hr.
    apply list_elem_of_lookup_1 in Hr as [i Hr].
    apply rows_lookup in Hr as (c & t & Hc & Ht & ->); [|exact Hlen].
    destruct (Hrow i c Hc) as (t' & _ & Hclean & _).
    apply row_of_stored; [exact Hrn|exact Hclean|].
    eapply column_type_range.
    destruct (Forall2_lookup_l _ _ _ _ _ Htypes Hc) as (t'' & Ht'' & Htype).
    rewrite Ht in Ht''. injection Ht'' as <-. exact Htype. }
  exists (sheet_of md). split; [now apply create_excel_download_sheet|].
  intros i column Hi. destruct (Hrow i column Hi) as (t & Hr & Hclean & Ht).
  assert (Hcell : ∀ j,
            value_at (sheet_of md) (3 + i, j + 1)
            = (stored_value <$> row_of self report_type (1 + i) column t) !! j).
  { intros j. unfold sheet_of.
    rewrite export_sheet_value, put_cells_data, stored_lookup, Hr.
    cbn [mbind option_bind]. now rewrite list_lookup_fmap. }
  destruct (row_of_stored self report_type (1 + i) column t Hrn Hclean Ht)
    as [_ Hstored].
  rewrite Hstored in Hcell.
  exists t. replace (i + 1) with (1 + i) by lia.
  split; [exact (Hcell 0)|]. split; [exact (Hcell 1)|].
  split; [exact (Hcell 2)|]. split; [exact (Hcell 16)|exact Ht].
Qed.

End BuildExport.

(** The export reads the rows of the frame and never its labels: two frames
    with the same rows give the same result. *)
Theorem export_ignores_labels (md md' : DataFrame value) :
  rows md = rows md' → create_excel_download md = create_excel_download md'.
Proof.
  intros Hrows.
  assert (Hwrite : ∀ ws, write_cells md ws = write_cells md' ws).
  { intros ws. unfold write_cells, write_data. now rewrite Hrows. }
  unfold create_excel_download, Workbook. rewrite Hwrite.
  destruct (write_cells md' _) as [ws|e]; cbn [bind]; [|reflexivity].
  do 2 f_equal. apply fit_columns_rows. now rewrite Hrows.
Qed.

(** ** Column widths *)

Lemma falsy_text_length (v : option value) :
  truthy v = false → text_length v ≤ 1.
Proof.
  destruct v as [[|s|n]|]; simpl.
  - discriminate.
  - intros Hs. apply negb_false_iff, bool_decide_eq_true in Hs. subst s.
    unfold text_length. simpl. lia.
  - intros Hn. apply negb_false_iff, bool_decide_eq_true in Hn. subst n.
    unfold text_length. simpl. lia.
  - intros _. unfold text_length. simpl. lia.
Qed.

Lemma fit_cell_step col_idx ws max_length row_idx :
  1 ≤ max_length →
  fit_cell col_idx (ws, max_length) row_idx
  = (with_cells (get_or_create (row_idx, col_idx + 1)) ws,
     max_length `max` text_length (value_at ws (row_idx, col_idx + 1))).
Proof.
  intros Hm. unfold fit_cell. rewrite value_at_get_or_create.
  fold (text_length (value_at ws (row_idx, col_idx + 1))).
  destruct (truthy _) eqn:Et; simpl.
  - case_bool_decide; f_equal; lia.
  - apply falsy_text_length in Et. f_equal. lia.
Qed.

Lemma fit_cells_max col_idx row_idxs :
  ∀ ws max_length,
    1 ≤ max_length →
    (fold_left (fit_cell col_idx) row_idxs (ws, max_length)).2
    = max_list (max_length
                :: ((λ r, text_length (value_at ws (r, col_idx + 1)))
                      <$> row_idxs)).
Proof.
  induction row_idxs as [|r row_idxs IH]; intros ws m Hm.
  { simpl. lia. }
  cbn [fold_left]. rewrite fit_cell_step by assumption. rewrite IH by lia.
  cbn [fmap list_fmap max_list].
  assert (Hsame : ((λ r', text_length
                            (value_at (with_cells (get_or_create (r, col_idx + 1)) ws)
                                      (r', col_idx + 1))) <$> row_idxs)
                  = ((λ r', text_length (value_at ws (r', col_idx + 1)))
                       <$> row_idxs)).
  { apply list_fmap_ext. intros ? r' _. now rewrite value_at_get_or_create. }
  rewrite Hsame. unfold id. lia.
Qed.

Lemma headers_not_empty :
  Forall (λ h, 1 ≤ py_len h) technical_headers
  ∧ Forall (λ h, 1 ≤ py_len h) user_headers.
Proof. split; apply (bool_decide_unpack _); vm_compute; exact I. Qed.

Lemma fit_column_value md col_idx letter ws k :
  value_at (fit_column md col_idx letter ws) k = value_at ws k.
Proof.
  unfold fit_column. destruct (fold_left _ _ _) as [ws' m] eqn:E.
  change (with_widths _ ws') with (with_widths <[letter := Nat.min (m + 2) 50]> (ws', m).1).
  rewrite <- E.
  rewrite (fit_cells_preserves (λ ws, value_at (with_widths _ ws) k)).
  - reflexivity.
  - intros k' ws''. apply (value_at_get_or_create k' ws'' k).
Qed.

Lemma fit_column_width md col_idx letter ws :
  col_idx < length technical_headers →
  (∀ i j, value_at ws (3 + i, j + 1) = rows md !! i ≫= λ r, r !! j) →
  column_widths (fit_column md col_idx letter ws)
  = <[letter := Nat.min (widest md col_idx + 2) 50]> (column_widths ws).
Proof.
  intros Hlt Hvalues.
  destruct (lookup_lt_is_Some_2 technical_headers col_idx Hlt) as [th Hth].
  destruct (lookup_lt_is_Some_2 user_headers col_idx Hlt) as [uh Huh].
  assert (Hth1 : 1 ≤ py_len th).
  { destruct headers_not_empty as [Hall _]. rewrite Forall_forall in Hall.
    apply Hall. eapply list_elem_of_lookup_2. eassumption. }
  unfold fit_column, widest. rewrite Hth, Huh. cbv zeta.
  rewrite (bool_decide_eq_true_2 (0 < py_len th)) by lia.
  set (m0 := if bool_decide (py_len th < py_len uh) then py_len uh else py_len th).
  assert (Hm0 : m0 = py_len th `max` py_len uh).
  { subst m0. case_bool_decide; lia. }
  destruct (fold_left _ _ _) as [ws' m] eqn:E.
  assert (Hm : m = (fold_left (fit_cell col_idx) (seq 3 (length (rows md)))
                      (ws, m0)).2) by now rewrite E.
  rewrite fit_cells_max in Hm by lia.
  assert (Hws' : column_widths ws' = column_widths ws).
  { change ws' with (ws', m).1. rewrite <- E.
    now rewrite (fit_cells_preserves column_widths). }
  unfold with_widths. cbn [column_widths]. rewrite Hws'. f_equal. f_equal. f_equal.
  rewrite Hm. cbn [max_list text_length fmap option_fmap option_map default
                   format_value].
  fold (text_length). rewrite Hm0.
  assert (Hdata : ((λ r, text_length (value_at ws (r, col_idx + 1)))
                     <$> seq 3 (length (rows md)))
                  = ((λ r, text_length (r !! col_idx)) <$> rows md)).
  { apply list_eq. intros i. rewrite !list_lookup_fmap.
    destruct (rows md !! i) as [row|] eqn:Ei.
    - rewrite (lookup_seq_lt _ _ _ (lookup_lt_Some _ _ _ Ei)).
      cbn [fmap option_fmap option_map]. now rewrite Hvalues, Ei.
    - rewrite lookup_seq_ge; [reflexivity|]. now apply lookup_ge_None_1. }
  rewrite Hdata. unfold id.
  change (text_length (Some (Str th))) with (py_len th).
  change (text_length (Some (Str uh))) with (py_len uh). lia.
Qed.

Lemma fit_columns_other md letters :
  ∀ start ws s,
    s ∉ letters →
    column_widths (for_enumerate (fit_column md) start letters ws) !! s
    = column_widths ws !! s.
Proof.
  induction letters as [|letter letters IH]; intros start ws s Hs; [reflexivity|].
  apply not_elem_of_cons in Hs as [Hne Hs]. simpl. rewrite IH by assumption.
  unfold fit_column. destruct (fold_left _ _ _) as [ws' m] eqn:E.
  unfold with_widths. cbn [column_widths]. rewrite lookup_insert_ne by congruence.
  change ws' with (ws', m).1. rewrite <- E.
  now rewrite (fit_cells_preserves column_widths).
Qed.

Lemma fit_columns_width md letters :
  ∀ start ws i s,
    NoDup letters → start + length letters ≤ length technical_headers →
    (∀ i j, value_at ws (3 + i, j + 1) = rows md !! i ≫= λ r, r !! j) →
    letters !! i = Some s →
    column_widths (for_enumerate (fit_column md) start letters ws) !! s
    = Some (Nat.min (widest md (start + i) + 2) 50).
Proof.
  induction letters as [|letter letters IH]; intros start ws i s Hnd Hlen Hv Hi;
    [discriminate|].
  apply NoDup_cons in Hnd as [Hnot Hnd]. cbn [length] in Hlen.
  destruct i as [|i]; cbn [for_enumerate lookup list_lookup] in *.
  - injection Hi as ->. rewrite fit_columns_other by assumption.
    rewrite fit_column_width by (try assumption; lia).
    rewrite lookup_insert_eq. now rewrite Nat.add_0_r.
  - rewrite (IH (start + 1) _ i s); try assumption; try lia.
    + now replace (start + 1 + i) with (start + S i) by lia.
    + intros i' j'. now rewrite fit_column_value.
Qed.

Lemma column_letters_spec :
  NoDup (column_letter <$> seq 0 (length technical_headers))
  ∧ length (column_letter <$> seq 0 (length technical_headers))
    = length technical_headers.
Proof.
  split; [apply (bool_decide_unpack _); vm_compute; exact I|reflexivity].
Qed.

Lemma fit_columns_letters md ws :
  fit_columns md ws
  = for_enumerate (fit_column md) 0
      (column_letter <$> seq 0 (length technical_headers)) ws.
Proof. reflexivity. Qed.

Lemma sheet_column_width md j :
  j < 21 →
  column_widths (fit_columns md (put_cells md blank_sheet)) !! column_letter j
  = Some (Nat.min (widest md j + 2) 50).
Proof.
  intros Hj. destruct column_letters_spec as [Hnd Hlen].
  rewrite fit_columns_letters.
  rewrite (fit_columns_width md _ 0 _ j (column_letter j)).
  - reflexivity.
  - exact Hnd.
  - rewrite Hlen. lia.
  - apply put_cells_data.
  - rewrite list_lookup_fmap, lookup_seq_lt by (simpl; lia). reflexivity.
Qed.

(** The export returns a sheet when every value passes the check, and in
    every sheet it returns each of the 21 columns, A to U, has as its
    width the longest text of the column (its two headers and its data
    values, as stored) plus 2, and at most 50. *)
Theorem export_column_width (md : DataFrame value) (j : nat) :
  j < 21 →
  (writable_table md = true → ∃ ws, create_excel_download md = Returns [ws])
  ∧ ∀ ws, create_excel_download md = Returns [ws] →
          column_widths ws !! column_letter j
          = Some (Nat.min (widest (stored md) j + 2) 50).
Proof.
  intros Hj. split.
  - intros Hall. eexists. now apply create_excel_download_sheet.
  - intros ws Hws. apply create_excel_download_inv in Hws as [_ [= ->]].
    unfold sheet_of. now apply sheet_column_width.
Qed.

Lemma put_cells_widths md ws :
  column_widths (put_cells md ws) = column_widths ws.
Proof.
  unfold put_cells.
  assert (Hdata : ∀ ws', column_widths (put_data md ws') = column_widths ws').
  { intros ws'. apply (for_enumerate_preserves column_widths).
    intros i row ws''. now apply (for_enumerate_preserves column_widths). }
  assert (Huser : ∀ ws', column_widths (put_user_headers ws')
                         = column_widths ws').
  { intros ws'. now apply (for_enumerate_preserves column_widths). }
  assert (Htech : ∀ ws', column_widths (put_technical_headers ws')
                         = column_widths ws').
  { intros ws'. now apply (for_enumerate_preserves column_widths). }
  rewrite Hdata.
  change (column_widths (freeze_header_rows ?w)) with (column_widths w).
  rewrite Huser.
  change (column_widths (hide_first_row ?w)) with (column_widths w).
  apply Htech.
Qed.

(** No other column gets a width, and no width exceeds 50. *)
Theorem export_widths_bounded (md : DataFrame value) (s : string) (w : nat) :
  ∀ ws, create_excel_download md = Returns [ws] →
        column_widths ws !! s = Some w →
        (∃ j, j < 21 ∧ s = column_letter j) ∧ w ≤ 50.
Proof.
  intros ws Hws Hw. apply create_excel_download_inv in Hws as [_ [= ->]].
  unfold sheet_of in Hw. set (md' := stored md) in *. clearbody md'.
  clear md. rename md' into md.
  destruct column_letters_spec as [Hnd Hlen].
  rewrite fit_columns_letters in Hw.
  destruct (decide (s ∈ column_letter <$> seq 0 (length technical_headers)))
    as [Hin|Hout].
  - apply list_elem_of_lookup_1 in Hin as [j Hj].
    rewrite (fit_columns_width md _ 0 _ j s) in Hw.
    + injection Hw as <-. split; [|lia].
      rewrite list_lookup_fmap in Hj.
      destruct (seq 0 (length technical_headers) !! j) as [j'|] eqn:Ej;
        [|discriminate].
      apply lookup_seq in Ej as [-> Hlt]. injection Hj as <-.
      exists j. split; [exact Hlt|reflexivity].
    + exact Hnd.
    + rewrite Hlen. lia.
    + apply put_cells_data.
    + exact Hj.
  - rewrite fit_columns_other in Hw by assumption.
    rewrite put_cells_widths in Hw.
    change (column_widths blank_sheet) with (∅ : gmap string nat) in Hw.
    rewrite lookup_empty in Hw. discriminate.
Qed.

(** ** The cells of an empty export *)

Lemma present_set_value (k' : nat * nat) (v : value)
  (m : gmap (nat * nat) Cell)
  (k : nat * nat) :
  is_Some (set_value k' v m !! k) ↔ k = k' ∨ is_Some (m !! k).
Proof.
  unfold set_value. destruct (decide (k = k')) as [->|Hne].
  - rewrite lookup_insert_eq. split; [now left|eauto].
  - rewrite lookup_insert_ne by congruence. split; [now right|].
    now intros [?|?].
Qed.

Lemma present_set_bold (k' : nat * nat) (m : gmap (nat * nat) Cell)
  (k : nat * nat) :
  is_Some (set_bold k' m !! k) ↔ k = k' ∨ is_Some (m !! k).
Proof.
  unfold set_bold. destruct (decide (k = k')) as [->|Hne].
  - rewrite lookup_insert_eq. split; [now left|eauto].
  - rewrite lookup_insert_ne by congruence. split; [now right|].
    now intros [?|?].
Qed.

Lemma present_get_or_create (k' : nat * nat) (m : gmap (nat * nat) Cell)
  (k : nat * nat) :
  is_Some (get_or_create k' m !! k) ↔ k = k' ∨ is_Some (m !! k).
Proof.
  unfold get_or_create. destruct (m !! k') eqn:E.
  - split; [now right|]. intros [->|?]; [rewrite E; eauto|assumption].
  - destruct (decide (k = k')) as [->|Hne].
    + rewrite lookup_insert_eq. split; [now left|eauto].
    + rewrite lookup_insert_ne by congruence. split; [now right|].
      now intros [?|?].
Qed.

Lemma write_row_present {A} (body : nat → A → Worksheet → Worksheet) (r : nat) :
  (∀ c x ws k,
     is_Some (cells (body c x ws) !! k) ↔ k = (r, c) ∨ is_Some (cells ws !! k)) →
  ∀ l start ws k,
    is_Some (cells (for_enumerate body start l ws) !! k)
    ↔ (k.1 = r ∧ start ≤ k.2 < start + length l) ∨ is_Some (cells ws !! k).
Proof.
  intros Hbody. induction l as [|x l IH]; intros start ws [kr kc]; simpl.
  - split; [now right|]. intros [[_ ?]|?]; [lia|assumption].
  - rewrite IH, Hbody. simpl. split.
    + intros [[-> Hc]|[[= -> ->]|Hws]]; [left; lia|left; lia|now right].
    + intros [[-> Hc]|Hws]; [|now right; right].
      destruct (decide (kc = start)) as [->|Hne]; [right; now left|left; lia].
Qed.

Lemma put_technical_headers_present ws k :
  is_Some (cells (put_technical_headers ws) !! k)
  ↔ (k.1 = 1 ∧ 1 ≤ k.2 < 1 + length technical_headers)
    ∨ is_Some (cells ws !! k).
Proof.
  apply (write_row_present _ 1). intros c x ws' k'. apply present_set_value.
Qed.

Lemma put_user_headers_present ws k :
  is_Some (cells (put_user_headers ws) !! k)
  ↔ (k.1 = 2 ∧ 1 ≤ k.2 < 1 + length user_headers) ∨ is_Some (cells ws !! k).
Proof.
  apply (write_row_present _ 2). intros c x ws' k'.
  cbn [with_cells cells put_cell]. rewrite present_set_bold, present_set_value.
  tauto.
Qed.

Lemma hide_first_row_cells ws : cells (hide_first_row ws) = cells ws.
Proof. reflexivity. Qed.

Lemma freeze_header_rows_cells ws :
  cells (freeze_header_rows ws) = get_or_create (3, 1) (cells ws).
Proof. reflexivity. Qed.

Lemma blank_sheet_cells : cells blank_sheet = ∅.
Proof. reflexivity. Qed.

Lemma headers_length : length technical_headers = 21 ∧ length user_headers = 21.
Proof. split; reflexivity. Qed.

Lemma fit_columns_no_rows md ws :
  rows md = [] → cells (fit_columns md ws) = cells ws.
Proof.
  intros Hrows. apply (for_enumerate_preserves cells).
  intros col_idx letter ws'. unfold fit_column. rewrite Hrows.
  cbn [length seq fold_left]. reflexivity.
Qed.

(** A frame without rows is exported as a sheet whose cells are the 42
    header cells of rows 1 and 2 and one empty cell at A3, which the
    assignment to [freeze_panes] creates. *)
Theorem export_empty_cells (md : DataFrame value) :
  rows md = [] →
  ∃ ws, create_excel_download md = Returns [ws]
    ∧ (∀ k, is_Some (cells ws !! k)
            ↔ ((k.1 = 1 ∨ k.1 = 2) ∧ 1 ≤ k.2 ≤ 21) ∨ k = (3, 1))
    ∧ cells ws !! (3, 1) = Some empty_cell.
Proof.
  intros Hrows.
  assert (Hstored : rows (stored md) = []).
  { unfold stored. cbn [rows]. now rewrite Hrows. }
  eexists. split.
  { apply create_excel_download_sheet. unfold writable_table.
    now rewrite Hrows. }
  unfold sheet_of. rewrite fit_columns_no_rows by assumption.
  unfold put_cells, put_data. rewrite Hstored. cbn [for_enumerate].
  set (ws3 := put_user_headers (hide_first_row (put_technical_headers
                                                    blank_sheet))).
  assert (Hpresent : ∀ k, is_Some (cells ws3 !! k)
                          ↔ (k.1 = 1 ∨ k.1 = 2) ∧ 1 ≤ k.2 ≤ 21).
  { intros k. subst ws3.
    rewrite put_user_headers_present, hide_first_row_cells,
      put_technical_headers_present, blank_sheet_cells, lookup_empty.
    destruct headers_length as [-> ->].
    split.
    - intros [[? ?]|[[? ?]|[? [=]]]]; split; auto; lia.
    - intros [[?|?] ?]; [right; left; split; [assumption|lia]
                        |left; split; [assumption|lia]]. }
  rewrite freeze_header_rows_cells. clearbody ws3.
  split.
  - intros k. rewrite present_get_or_create, Hpresent. tauto.
  - unfold get_or_create. destruct (cells ws3 !! (3, 1)) eqn:E.
    + exfalso. assert (Hsome : is_Some (cells ws3 !! (3, 1))) by eauto.
      apply Hpresent in Hsome. simpl in Hsome. lia.
    + apply lookup_insert_eq.
Qed.

(** ** Further runs on the samples *)

Lemma detect_present_values_witness :
  dropna Sample.ones ≡ₚ dropna Sample.ones_shuffled
  ∧ @detect_data_type Sample.runtime Sample.ones
    = @detect_data_type Sample.runtime Sample.ones_shuffled.
Proof.
  assert (Hperm : dropna Sample.ones ≡ₚ dropna Sample.ones_shuffled).
  { vm_compute. apply perm_swap. }
  split; [exact Hperm|].
  exact (@detect_present_values Sample.runtime _ _ Hperm).
Defined.

Lemma sample_built :
  @transform_to_metadata Sample.runtime Sample.transformer Sample.frame "Ручной"
  = Returns Sample.built.
Proof. vm_compute. reflexivity. Defined.

Lemma transform_constant_fields_witness :
  field Sample.built (row_of Sample.transformer "Ручной" 1 "ID" "число")
    "algorithms_change_info" = Some (Str "нет")
  ∧ field Sample.built (row_of Sample.transformer "Ручной" 1 "ID" "число")
      "required_attribute_info" = Some (Str "да").
Proof.
  destruct (@transform_constant_fields Sample.runtime Sample.transformer
              Sample.frame "Ручной" Sample.built
              (row_of Sample.transformer "Ручной" 1 "ID" "число")
              sample_built (list_elem_of_here _ _))
    as (Hchange & Hrequired & _).
  split; [exact Hchange|exact Hrequired].
Defined.

Lemma transform_types_witness :
  NoDup (columns Sample.frame)
  ∧ columns Sample.frame !! 2 = Some "Active"
  ∧ ∃ r, rows Sample.built !! 2 = Some r
      ∧ field Sample.built r "base_type_report_field"
        = Some (Str (@detect_data_type Sample.runtime
                       ((λ row, row !!! 2) <$> rows Sample.frame))).
Proof.
  assert (Hnd : NoDup (columns Sample.frame)).
  { apply (bool_decide_unpack _). vm_compute. exact I. }
  split; [exact Hnd|]. split; [reflexivity|].
  exact (@transform_types Sample.runtime Sample.transformer Sample.frame
           "Ручной" Sample.built 2 "Active" Hnd sample_built eq_refl).
Defined.

Lemma transform_failures_witness :
  columns Sample.no_columns = []
  ∧ KeyError "Noreportfield_info" = KeyError "Noreportfield_info"
  ∨ columns Sample.no_columns ≠ []
    ∧ ¬ NoDup (columns Sample.no_columns)
    ∧ KeyError "Noreportfield_info" = AttributeError "str".
Proof.
  apply (@transform_failures Sample.runtime Sample.transformer
           Sample.no_columns "ИЛА").
  vm_compute. reflexivity.
Defined.

Lemma transform_repeated_label_witness :
  @transform_to_metadata Sample.runtime Sample.transformer Sample.repeated
    "Автоматический"
  = Raises (AttributeError "str").
Proof.
  apply (@transform_repeated_label Sample.runtime Sample.transformer
           Sample.repeated "Автоматический" 0 2 "A"
           [Scalar "1"; Scalar "2"; Scalar "3"]).
  - reflexivity.
  - reflexivity.
  - lia.
  - apply list_elem_of_here.
  - reflexivity.
  - repeat constructor.
Defined.

Lemma transform_returns_table_witness : MetadataTable Sample.built.
Proof.
  exact (@transform_returns_table Sample.runtime Sample.transformer
           Sample.frame "Ручной" Sample.built sample_built).
Defined.

Lemma build_then_export_witness :
  ∃ ws, create_excel_download Sample.built = Returns [ws]
    ∧ ∃ data_type,
        value_at ws (3 + 3, 1) = Some (Str "R007_4")
        ∧ value_at ws (3 + 3, 2) = Some (Int 4)
        ∧ value_at ws (3 + 3, 3) = Some (Str "JoinDate")
        ∧ value_at ws (3 + 3, 17) = Some (Str data_type)
        ∧ data_type ∈ ["текст"; "число"; "дата"; "флаг"].
Proof.
  destruct (@build_then_export Sample.runtime Sample.transformer Sample.frame
              "Ручной" Sample.built) as (ws & Hws & Hcells).
  - vm_compute. reflexivity.
  - apply (bool_decide_unpack _). vm_compute. exact I.
  - exact sample_built.
  - exists ws. split; [exact Hws|].
    destruct (Hcells 3 "JoinDate" eq_refl) as (t & Ha & Hb & Hc & Hq & Ht).
    exists t. split; [exact Ha|]. split; [exact Hb|]. split; [exact Hc|].
    split; [exact Hq|exact Ht].
Defined.

Lemma export_no_rows_witness :
  ∃ ws, create_excel_download {| columns := technical_headers; rows := [] |}
        = Returns [ws]
    ∧ value_at ws (3, 1) = None.
Proof. apply (export_no_rows technical_headers 3 1). lia. Defined.

Lemma export_ignores_labels_witness :
  create_excel_download Sample.table
  = create_excel_download {| columns := []; rows := rows Sample.table |}.
Proof. apply export_ignores_labels. reflexivity. Defined.

Lemma export_empty_cells_witness :
  ∃ ws, create_excel_download Sample.no_rows = Returns [ws]
    ∧ (∀ k, is_Some (cells ws !! k)
            ↔ ((k.1 = 1 ∨ k.1 = 2) ∧ 1 ≤ k.2 ≤ 21) ∨ k = (3, 1))
    ∧ cells ws !! (3, 1) = Some empty_cell.
Proof. apply export_empty_cells. reflexivity. Defined.

Lemma export_column_width_witness :
  ∃ ws, create_excel_download Sample.table = Returns [ws]
    ∧ column_widths ws !! "A" = Some 21.
Proof.
  destruct (export_column_width Sample.table 0) as [Hreturns Hwidth].
  - lia.
  - destruct Hreturns as [ws Hws]; [vm_compute; reflexivity|].
    exists ws. split; [exact Hws|].
    refine (eq_trans (Hwidth ws Hws) _). vm_compute. reflexivity.
Defined.

Lemma export_widths_bounded_witness :
  (∃ j, j < 21 ∧ "N" = column_letter j) ∧ 50 ≤ 50.
Proof.
  apply (export_widths_bounded Sample.table "N" 50 (sheet_of Sample.table)).
  - vm_compute. reflexivity.
  - vm_compute. reflexivity.
Defined.

(** * Where the program departs from its description *)

(** ** Blank strings are not dropped *)

Lemma dropna_present (values : Series) (v : cell) :
  v ∈ dropna values → isna v = false.
Proof.
  unfold dropna. intros Hv. apply list_elem_of_In, filter_In in Hv as [_ Hv].
  now apply negb_true_iff in Hv.
Qed.

Lemma filter_all {A} (p : A → bool) (l : list A) :
  Forall (λ x, p x = true) l → List.filter p l = l.
Proof.
  induction 1 as [|x l Hx _ IH]; [reflexivity|]. simpl. now rewrite Hx, IH.
Qed.

Section Blank.
Context `{Runtime}.

(** C2: [dropna] keeps the empty and blank strings, which line 34 means to
    remove, and [_is_date] accepts them, since [pd.to_datetime] returns
    [NaT] for the empty string: a sample with a present value whose present
    values are all blank is classified as a date, not as text. *)
Theorem detect_blank_is_date (values : Series) :
  str_lower "" = "" →
  to_datetime "" = true →
  dropna values ≠ [] →
  Forall (λ v, str_strip (py_str v) = "") (dropna values) →
  detect_data_type values = "дата".
Proof.
  intros Hlower Hnat Hne Hblank.
  assert (Hlen : 0 < length (dropna values)).
  { destruct (dropna values); [exfalso; now apply Hne|simpl; lia]. }
  assert (Hdates : Forall (λ v, _is_date v = true) (dropna values)).
  { apply Forall_forall. intros v Hv. unfold _is_date.
    rewrite (dropna_present values v Hv).
    rewrite Forall_forall in Hblank. rewrite (Hblank v Hv), Hnat.
    now destruct (existsb _ _). }
  assert (Hflag : flag_condition (dropna values) = false).
  { unfold flag_condition. apply andb_false_iff. left.
    apply bool_decide_eq_false. intros Hsub.
    assert (Hin : "" ∈ (list_to_set (normalize (dropna values)) : gset string)).
    { destruct (dropna values) as [|v clean] eqn:E; [now destruct Hne|].
      apply elem_of_list_to_set. unfold normalize. cbn [fmap list_fmap].
      apply Forall_cons in Hblank as [Hv _]. rewrite Hv, Hlower.
      apply list_elem_of_here. }
    apply Hsub in Hin. revert Hin. apply (bool_decide_unpack _).
    vm_compute. exact I. }
  rewrite detect_nonempty, Hflag by assumption.
  rewrite count_loop_filter, (filter_all _ _ Hdates).
  assert (Hgt : Qgt_bool (ratio (length (dropna values))
                                (length (dropna values))) (7 # 10) = true).
  { apply Qgt_bool_ratio; [exact Hlen|].
    apply ratio_gt_cross; [exact Hlen|]. lia. }
  now rewrite Hgt.
Qed.

End Blank.

Lemma detect_blank_is_date_witness :
  Forall (λ v, @str_strip Sample.runtime_nat (py_str v) = "")
    (dropna Sample.blanks)
  ∧ @detect_data_type Sample.runtime_nat Sample.blanks = "дата".
Proof.
  assert (Hblank : Forall (λ v, @str_strip Sample.runtime_nat (py_str v) = "")
                     (dropna Sample.blanks)).
  { repeat constructor. }
  split; [exact Hblank|].
  apply (@detect_blank_is_date Sample.runtime_nat Sample.blanks).
  - reflexivity.
  - reflexivity.
  - vm_compute. discriminate.
  - exact Hblank.
Defined.

(** ** Only the spaces are removed before [float] *)

(** Ten values that are numbers once their white space is removed, none of
    which [_is_numeric] accepts: the sample meets neither the flag nor the
    date condition, its share of such numbers is above 8/10, and it is
    text. *)
Lemma detect_number_whitespace_counterexample :
  dropna Sample.tabbed ≠ []
  ∧ @flag_condition Sample.runtime (dropna Sample.tabbed) = false
  ∧ ¬ (7 # 10 < ratio (length (List.filter (@_is_date Sample.runtime)
                                  (dropna Sample.tabbed)))
                      (length (dropna Sample.tabbed)))%Q
  ∧ (8 # 10 < ratio (length (List.filter
                               (@numeric_without_whitespace Sample.runtime)
                               (dropna Sample.tabbed)))
                    (length (dropna Sample.tabbed)))%Q
  ∧ @detect_data_type Sample.runtime Sample.tabbed = "текст".
Proof.
  split; [vm_compute; discriminate|].
  split; [vm_compute; reflexivity|].
  split; [intros Hlt; vm_compute in Hlt; discriminate|].
  split; [vm_compute; reflexivity|vm_compute; reflexivity].
Qed.

(** ** The export refuses control characters *)

(** A metadata table whose label holds U+0001 is not exported: the write
    of the label raises. *)
Lemma export_illegal_counterexample :
  MetadataTable Sample.illegal_table
  ∧ create_excel_download Sample.illegal_table
    = Raises (IllegalCharacterError (String "001" "ID")).
Proof.
  split; [split; [reflexivity|repeat constructor]|].
  vm_compute. reflexivity.
Qed.

(** ** Reading the file back *)

Section RoundTrip.
Context `{Xlsx}.


End RoundTrip.


